(** * Support-ticket classification pipeline

    A shallow embedding of the three programs of the repository:

    - [Support_ticket.py]: the batch processor ([template], [send_prompt],
      [process_tickets]);
    - [Support_ticket_st.py]: the interactive front end, which shares
      [template] and [send_prompt] with the batch processor;
    - [support_ticket.py]: the LangChain script (its [llm] configuration,
      column check and results loop).

    Python values that come out of [json.loads] are modelled by the type
    [json]; Python's dynamically typed operations on them ([in], indexing,
    [len], [.get], [str.join]) are functions into an exception monad, so
    that a [TypeError] or [AttributeError] of the interpreter is a visible
    outcome of the model.  The remote endpoint and the JSON decoder are
    library code: they are parameters of the development. *)

From Stdlib Require Import String Ascii List Bool ZArith Lia DecimalString.
Import ListNotations.
Open Scope string_scope.

Set Implicit Arguments.
Set Warnings "-register-all".

(* ===================================================================== *)
(** ** Strings                                                           *)
(* ===================================================================== *)

(** Python [str] values are modelled by [string]; one [ascii] stands for
    one character. *)

(** The double-quote character and a quoted word. *)
Definition dq : string := String (ascii_of_nat 34) EmptyString.
Definition nl : string := String (ascii_of_nat 10) EmptyString.
Definition quoted (s : string) : string := dq ++ s ++ dq.

(** [needle in hay] for two strings: [needle] occurs in [hay]. *)
Fixpoint str_contains (needle hay : string) : bool :=
  String.prefix needle hay ||
  match hay with
  | EmptyString => false
  | String _ hay' => str_contains needle hay'
  end.

(** [sep.join(parts)] for a list of strings. *)
Fixpoint str_join (sep : string) (parts : list string) : string :=
  match parts with
  | [] => EmptyString
  | [p] => p
  | p :: rest => p ++ sep ++ str_join sep rest
  end.

(** The characters of a string, each as a one-character string: what
    iterating over a [str] yields. *)
Fixpoint str_chars (s : string) : list string :=
  match s with
  | EmptyString => []
  | String c s' => String c EmptyString :: str_chars s'
  end.

Fixpoint unlines (ls : list string) : string :=
  match ls with
  | [] => EmptyString
  | l :: rest => l ++ nl ++ unlines rest
  end.

(* ===================================================================== *)
(** ** JSON values, as [json.loads] builds them                          *)
(* ===================================================================== *)

(** [JObj] is a Python [dict] with string keys (in insertion order),
    [JArr] a [list], [JStr] a [str], [JInt] an [int], [JFloat] a [float]
    (identified by the decimal literal that denotes it; the programs never
    compute with floats), [JBool] a [bool] and [JNull] is [None]. *)
Inductive json : Type :=
| JNull
| JBool (b : bool)
| JInt (z : Z)
| JFloat (literal : string)
| JStr (s : string)
| JArr (items : list json)
| JObj (members : list (string * json)).

(** The name of the Python type of a value, as error messages print it. *)
Definition type_name (v : json) : string :=
  match v with
  | JNull => "NoneType"
  | JBool _ => "bool"
  | JInt _ => "int"
  | JFloat _ => "float"
  | JStr _ => "str"
  | JArr _ => "list"
  | JObj _ => "dict"
  end.

(** Dictionary lookup: the entry of the first member with that key. *)
Fixpoint dict_lookup (k : string) (d : list (string * json)) : option json :=
  match d with
  | [] => None
  | (k', v) :: d' => if String.eqb k k' then Some v else dict_lookup k d'
  end.

Definition dict_has (k : string) (d : list (string * json)) : bool :=
  match dict_lookup k d with Some _ => true | None => false end.

(** [d.get(k, default)] on a dictionary. *)
Definition field_or (d : list (string * json)) (k : string) (default : json)
  : json :=
  match dict_lookup k d with Some x => x | None => default end.


(** The keys of a dictionary, each once, in order of first insertion. *)
Fixpoint dict_keys (d : list (string * json)) : list string :=
  match d with
  | [] => []
  | (k, _) :: d' =>
      k :: filter (fun k' => negb (String.eqb k k')) (dict_keys d')
  end.

(** [d[k] = v]: replaces the entry in place or appends a new one. *)
Fixpoint dict_set (k : string) (v : json) (d : list (string * json))
  : list (string * json) :=
  match d with
  | [] => [(k, v)]
  | (k', v') :: d' =>
      if String.eqb k k' then (k', v) :: d' else (k', v') :: dict_set k v d'
  end.

(** [x == y] between the string [x] and a decoded value [y]. *)
Definition str_eq_json (x : string) (y : json) : bool :=
  match y with
  | JStr s => String.eqb x s
  | _ => false
  end.

(* ===================================================================== *)
(** ** Exceptions                                                        *)
(* ===================================================================== *)

(** The exception classes the programs distinguish.  [except Exception]
    catches every class but [BaseExceptionOnly] (KeyboardInterrupt,
    SystemExit and the like); [except json.JSONDecodeError] catches
    [JSONDecodeError] only. *)
Inductive exn_class : Type :=
| JSONDecodeError
| TypeError
| KeyError
| IndexError
| AttributeError
| ValueError
| OtherException (name : string)
| BaseExceptionOnly (name : string).

(** An exception: its class and [str(e)]. *)
Record exn : Type := Exn { exn_class_of : exn_class; exn_str : string }.

Definition is_Exception (e : exn) : bool :=
  match exn_class_of e with
  | BaseExceptionOnly _ => false
  | _ => true
  end.

Definition is_JSONDecodeError (e : exn) : bool :=
  match exn_class_of e with
  | JSONDecodeError => true
  | _ => false
  end.

(** The outcome of evaluating a Python expression. *)
Inductive result (A : Type) : Type :=
| Ret (a : A)
| Raise (e : exn).
Arguments Ret {A} a.
Arguments Raise {A} e.

Definition rbind {A B} (r : result A) (k : A -> result B) : result B :=
  match r with
  | Ret a => k a
  | Raise e => Raise e
  end.

(* ===================================================================== *)
(** ** Python's dynamically typed operations on decoded values           *)
(* ===================================================================== *)

(** The messages of the interpreter's own exceptions are worded as
    CPython 3.12 words them; no property below depends on the wording
    except where an example shows the exception that escapes. *)

(** [needle in v]. *)
Definition py_in(needle : string) (v : json) : result bool :=
  match v with
  | JObj d => Ret (dict_has needle d)
  | JArr l => Ret (existsb (str_eq_json needle) l)
  | JStr s => Ret (str_contains needle s)
  | _ => Raise (Exn TypeError
                  ("argument of type '" ++ type_name v ++ "' is not iterable"))
  end.

(** [v[k]] for a string key [k]. *)
Definition py_getitem (v : json) (k : string) : result json :=
  match v with
  | JObj d =>
      match dict_lookup k d with
      | Some x => Ret x
      | None => Raise (Exn KeyError ("'" ++ k ++ "'"))
      end
  | JArr _ => Raise (Exn TypeError
                       "list indices must be integers or slices, not str")
  | JStr _ => Raise (Exn TypeError "string indices must be integers, not 'str'")
  | _ => Raise (Exn TypeError
                  ("'" ++ type_name v ++ "' object is not subscriptable"))
  end.

(** [v[0]]. *)
Definition py_getitem0 (v : json) : result json :=
  match v with
  | JArr (x :: _) => Ret x
  | JArr [] => Raise (Exn IndexError "list index out of range")
  | JStr (String c _) => Ret (JStr (String c EmptyString))
  | JStr EmptyString => Raise (Exn IndexError "string index out of range")
  | JObj _ => Raise (Exn KeyError "0")
  | _ => Raise (Exn TypeError
                  ("'" ++ type_name v ++ "' object is not subscriptable"))
  end.

(** [len(v)]. *)
Definition py_len (v : json) : result nat :=
  match v with
  | JArr l => Ret (List.length l)
  | JStr s => Ret (String.length s)
  | JObj d => Ret (List.length (dict_keys d))
  | _ => Raise (Exn TypeError
                  ("object of type '" ++ type_name v ++ "' has no len()"))
  end.

(** [v.get(k, default)]: only a [dict] has the method. *)
Definition py_get (v : json) (k : string) (default : json) : result json :=
  match v with
  | JObj d =>
      Ret (match dict_lookup k d with Some x => x | None => default end)
  | _ => Raise (Exn AttributeError
                  ("'" ++ type_name v ++ "' object has no attribute 'get'"))
  end.

(** The items of a sequence that [str.join] accepts: every item must be a
    [str]; the position of the first offender is reported. *)
Fixpoint join_items (i : nat) (l : list json) : result (list string) :=
  match l with
  | [] => Ret []
  | JStr s :: l' => rbind (join_items (S i) l') (fun r => Ret (s :: r))
  | x :: _ =>
      Raise (Exn TypeError
               ("sequence item " ++ NilZero.string_of_uint (Nat.to_uint i)
                ++ ": expected str instance, " ++ type_name x ++ " found"))
  end.

(** [sep.join(v)]: [v] must be iterable (a list, a string, whose items are
    its characters, or a dict, whose items are its keys). *)
Definition py_join (sep : string) (v : json) : result string :=
  match v with
  | JArr l => rbind (join_items 0 l) (fun parts => Ret (str_join sep parts))
  | JStr s => Ret (str_join sep (str_chars s))
  | JObj d => Ret (str_join sep (dict_keys d))
  | _ => Raise (Exn TypeError "can only join an iterable")
  end.

(* ===================================================================== *)
(** ** [str.format]                                                      *)
(* ===================================================================== *)

Definition lbrace : ascii := ascii_of_nat 123.
Definition rbrace : ascii := ascii_of_nat 125.

Fixpoint kw_lookup (k : string) (kwargs : list (string * string))
  : option string :=
  match kwargs with
  | [] => None
  | (k', v) :: rest => if String.eqb k k' then Some v else kw_lookup k rest
  end.

(** [fmt.format] with keyword arguments, for format strings whose replacement fields are
    plain names: a doubled brace stands for one literal brace, [{name}] is
    replaced by the keyword argument (which is not scanned again), a
    missing name is a [KeyError], an unbalanced brace a [ValueError].
    [field] is [Some n] while the scanner is inside a field whose name
    starts with [n]. *)
Fixpoint format_scan (kwargs : list (string * string))
         (field : option string) (fmt : string) : result string :=
  match field with
  | None =>
      match fmt with
      | EmptyString => Ret EmptyString
      | String c rest =>
          if Ascii.eqb c lbrace then
            match rest with
            | String c' rest' =>
                if Ascii.eqb c' lbrace
                then rbind (format_scan kwargs None rest')
                           (fun r => Ret (String lbrace r))
                else format_scan kwargs (Some EmptyString) rest
            | EmptyString =>
                Raise (Exn ValueError "Single '{' encountered in format string")
            end
          else if Ascii.eqb c rbrace then
            match rest with
            | String c' rest' =>
                if Ascii.eqb c' rbrace
                then rbind (format_scan kwargs None rest')
                           (fun r => Ret (String rbrace r))
                else
                  Raise (Exn ValueError
                           "Single '}' encountered in format string")
            | EmptyString =>
                Raise (Exn ValueError "Single '}' encountered in format string")
            end
          else rbind (format_scan kwargs None rest)
                     (fun r => Ret (String c r))
      end
  | Some name =>
      match fmt with
      | EmptyString =>
          Raise (Exn ValueError "expected '}' before end of string")
      | String c rest =>
          if Ascii.eqb c rbrace then
            match kw_lookup name kwargs with
            | Some v =>
                rbind (format_scan kwargs None rest) (fun r => Ret (v ++ r))
            | None => Raise (Exn KeyError ("'" ++ name ++ "'"))
            end
          else if Ascii.eqb c lbrace then
            Raise (Exn ValueError "unexpected '{' in field name")
          else format_scan kwargs (Some (name ++ String c EmptyString)) rest
      end
  end.

Definition py_format (fmt : string) (kwargs : list (string * string))
  : result string :=
  format_scan kwargs None fmt.

(* ===================================================================== *)
(** ** The prompt template (Support_ticket.py, Support_ticket_st.py)     *)
(* ===================================================================== *)

Definition template : string :=
  nl ++ unlines
  [ "You are an AI assistant designed to classify and respond to support tickets."
  ; "For each ticket, perform the following tasks:"
  ; "1. Classify the issue into a professional category based on the content of the ticket."
  ; "Categories can include but are not limited to: technical issues, hardware issues,"
  ; "data recovery, software issues, user error, connectivity issues, or other relevant"
  ; "categories based on the ticket."
  ; "2. Assign relevant tags that describe the issue. Tags can include data loss,"
  ; "internet connectivity, slow performance, security concerns, software crashes,"
  ; "or anything else related to the issue at hand."
  ; "3. Determine the priority based on urgency: high, medium, or low."
  ; "4. Suggest an estimated resolution time. For example, 2 hours, 4 hours, 1 day, or"
  ; "any reasonable estimate based on the issue's complexity."
  ; "5. Generate a polite and empathetic first reply that acknowledges the user's concern,"
  ; "offers assistance, and sets expectations."
  ; "6. Analyze sentiment of the ticket: positive, negative, or neutral,"
  ; "based on the tone and content of the customer."
  ; EmptyString
  ; "Support Ticket: {ticket_text}"
  ; EmptyString
  ; "Your response should be in the following JSON format:"
  ; "{{"
  ; "    " ++ quoted "category" ++ ": " ++ quoted "<category>" ++ ","
  ; "    " ++ quoted "tags" ++ ": [" ++ quoted "<tag1>" ++ ", "
           ++ quoted "<tag2>" ++ "],"
  ; "    " ++ quoted "priority" ++ ": " ++ quoted "<priority>" ++ ","
  ; "    " ++ quoted "suggested_eta" ++ ": " ++ quoted "<time>" ++ ","
  ; "    " ++ quoted "generated_reply" ++ ": " ++ quoted "<reply>" ++ ","
  ; "    " ++ quoted "sentiment" ++ ": " ++ quoted "<sentiment>"
  ; "}}" ].

(** [template.format(ticket_text=text)]. *)
Definition render (ticket_text : string) : result string :=
  py_format template [("ticket_text", ticket_text)].

(** What [template] denotes as a format string: the text before the
    replacement field and the text after it. *)
Definition template_prefix : string :=
  nl ++ unlines
  [ "You are an AI assistant designed to classify and respond to support tickets."
  ; "For each ticket, perform the following tasks:"
  ; "1. Classify the issue into a professional category based on the content of the ticket."
  ; "Categories can include but are not limited to: technical issues, hardware issues,"
  ; "data recovery, software issues, user error, connectivity issues, or other relevant"
  ; "categories based on the ticket."
  ; "2. Assign relevant tags that describe the issue. Tags can include data loss,"
  ; "internet connectivity, slow performance, security concerns, software crashes,"
  ; "or anything else related to the issue at hand."
  ; "3. Determine the priority based on urgency: high, medium, or low."
  ; "4. Suggest an estimated resolution time. For example, 2 hours, 4 hours, 1 day, or"
  ; "any reasonable estimate based on the issue's complexity."
  ; "5. Generate a polite and empathetic first reply that acknowledges the user's concern,"
  ; "offers assistance, and sets expectations."
  ; "6. Analyze sentiment of the ticket: positive, negative, or neutral,"
  ; "based on the tone and content of the customer."
  ; EmptyString ]
  ++ "Support Ticket: ".

Definition template_suffix : string :=
  nl ++ unlines
  [ EmptyString
  ; "Your response should be in the following JSON format:"
  ; "{"
  ; "    " ++ quoted "category" ++ ": " ++ quoted "<category>" ++ ","
  ; "    " ++ quoted "tags" ++ ": [" ++ quoted "<tag1>" ++ ", "
           ++ quoted "<tag2>" ++ "],"
  ; "    " ++ quoted "priority" ++ ": " ++ quoted "<priority>" ++ ","
  ; "    " ++ quoted "suggested_eta" ++ ": " ++ quoted "<time>" ++ ","
  ; "    " ++ quoted "generated_reply" ++ ": " ++ quoted "<reply>" ++ ","
  ; "    " ++ quoted "sentiment" ++ ": " ++ quoted "<sentiment>"
  ; "}" ].

(** Writing a literal text inside a format string: each brace doubled. *)
Fixpoint escape_braces (s : string) : string :=
  match s with
  | EmptyString => EmptyString
  | String c s' =>
      if Ascii.eqb c lbrace || Ascii.eqb c rbrace
      then String c (String c (escape_braces s'))
      else String c (escape_braces s')
  end.

Definition prompt_of (ticket_text : string) : string :=
  template_prefix ++ ticket_text ++ template_suffix.


(* ===================================================================== *)
(** ** Tabular data                                                      *)
(* ===================================================================== *)

(** A cell of a frame read by [pd.read_csv]: a string, an integer, a float
    (identified by its [repr]; an empty field is the float [nan]) or a
    boolean. *)
Inductive cell : Type :=
| CStr (s : string)
| CInt (z : Z)
| CFloat (repr : string)
| CBool (b : bool).

Definition nan : cell := CFloat "nan".

(** [format(c, '')], which is [str(c)]: how [str.format] and an f-string
    print a cell. *)
Definition cell_str (c : cell) : string :=
  match c with
  | CStr s => s
  | CInt z => NilZero.string_of_int (Z.to_int z)
  | CFloat r => r
  | CBool true => "True"
  | CBool false => "False"
  end.

(** A frame: column labels and rows, each row positional. *)
Record DataFrame : Type :=
  { columns : list string; rows : list (list cell) }.

(** [name in df.columns]. *)
Definition has_column (name : string) (cols : list string) : bool :=
  existsb (String.eqb name) cols.

(** [row[name]] for a row yielded by [df.iterrows()]: [KeyError] for an
    unknown label; a row shorter than the header reads as [nan]. *)
Fixpoint row_get (cols : list string) (row : list cell) (name : string)
  : result cell :=
  match cols with
  | [] => Raise (Exn KeyError ("'" ++ name ++ "'"))
  | c :: cols' =>
      if String.eqb name c then Ret (hd nan row)
      else row_get cols' (tl row) name
  end.

(** One dictionary appended to [generated_data] by [process_tickets]. *)
Record report_row : Type :=
  { support_tick_id : cell;
    category : json;
    tags : json;
    priority : json;
    suggested_eta : json;
    generated_reply : json;
    sentiment : json }.

(** The six classification fields of a row. *)
Definition six_fields (r : report_row)
  : json * json * json * json * json * json :=
  (category r, tags r, priority r, suggested_eta r, generated_reply r,
   sentiment r).

Definition expected_fields : list string :=
  ["category"; "tags"; "priority"; "suggested_eta"; "generated_reply";
   "sentiment"].


(* ===================================================================== *)
(** ** Effects: state and exceptions                                     *)
(* ===================================================================== *)

(** A computation over a state [S] that returns or raises; the effects
    performed before a raise stay. *)
Definition M (S A : Type) : Type := S -> result A * S.

Definition mret {S A} (a : A) : M S A := fun st => (Ret a, st).
Definition mraise {S A} (e : exn) : M S A := fun st => (Raise e, st).
Definition lift {S A} (r : result A) : M S A := fun st => (r, st).

Definition mbind {S A B} (m : M S A) (k : A -> M S B) : M S B :=
  fun st =>
    match m st with
    | (Ret a, st') => k a st'
    | (Raise e, st') => (Raise e, st')
    end.

(** [try: body  except <classes> as e: handler e]. *)
Definition try_except {S A} (body : M S A) (catches : exn -> bool)
           (handler : exn -> M S A) : M S A :=
  fun st =>
    match body st with
    | (Ret a, st') => (Ret a, st')
    | (Raise e, st') => if catches e then handler e st' else (Raise e, st')
    end.

Declare Scope py_scope.
Delimit Scope py_scope with py.
Notation "x <- c ;; k" := (mbind c (fun x => k))
  (at level 61, c at next level, right associativity) : py_scope.
Notation "c ;;; k" := (mbind c (fun _ => k))
  (at level 61, right associativity) : py_scope.
Open Scope py_scope.

(** What the programs print. *)
Inductive console_event : Type :=
| PrintLine (s : string)
    (** a fixed or formatted line *)
| PrintResponse (prompt_data : string) (structured_output : json)
    (** the verbose trace of [send_prompt]: the prompt and
        [json.dumps(structured_output, indent=4)] *)
| PrintInvalidJSON (ticket_id : cell) (response : string)
| PrintProcessingError (ticket_id : cell) (e : exn).

(** The keyword arguments of one [invoke_model] call; [body] is the value
    handed to [json.dumps]. *)
Record request : Type :=
  { body : json; modelId : string; accept : string; contentType : string }.

(* ===================================================================== *)
(** ** Support_ticket.py: [send_prompt] and [process_tickets]            *)
(* ===================================================================== *)

Section Bedrock.

(** The remote endpoint: [invoke_model rq w] is what
    [bedrock_inference.invoke_model(...)] followed by
    [response["body"].read().decode("utf-8")] does in the world [w]: it
    raises, or yields the text of the response body; either way the
    world moves on. *)
Variable World : Type.
Variable invoke_model : request -> World -> result string * World.

(** [json.loads] on a string: the decoded value, or an exception, which
    is a [JSONDecodeError] when the text is not valid JSON. *)
Variable json_loads : string -> result json.

(** The state of a run: the world behind the endpoint, the requests
    sent so far, the console, and the tables written by [to_csv]. *)
Record state : Type :=
  { world : World;
    calls : list request;
    stdout : list console_event;
    written : list (string * list report_row) }.

Definition print (ev : console_event) : M state unit :=
  fun st =>
    (Ret tt, {| world := world st; calls := calls st;
                stdout := stdout st ++ [ev]; written := written st |}).

Definition call_invoke_model (rq : request) : M state string :=
  fun st =>
    let (out, w') := invoke_model rq (world st) in
    (out, {| world := w'; calls := calls st ++ [rq];
             stdout := stdout st; written := written st |}).

(** [pd.DataFrame(generated_data).to_csv(path, index=False)]. *)
Definition to_csv (path : string) (generated_data : list report_row)
  : M state unit :=
  fun st =>
    (Ret tt, {| world := world st; calls := calls st; stdout := stdout st;
                written := written st ++ [(path, generated_data)] |}).

(** [json.loads(v)] for an arbitrary value [v]. *)
Definition py_json_loads (v : json) : result json :=
  match v with
  | JStr s => json_loads s
  | _ => Raise (Exn TypeError
                  ("the JSON object must be str, bytes or bytearray, not "
                   ++ type_name v))
  end.

Definition textGenerationConfig : json :=
  JObj [ ("temperature", JFloat "0.0");
         ("topP", JFloat "1.0");
         ("maxTokenCount", JInt 1000) ].

Definition request_for (prompt_data : string) : request :=
  {| body := JObj [ ("inputText", JStr prompt_data);
                    ("textGenerationConfig", textGenerationConfig) ];
     modelId := "amazon.titan-text-premier-v1:0";
     accept := "application/json";
     contentType := "application/json" |}.

Definition error_dict (message : string) : json :=
  JObj [("error", JStr message)].

Definition decode_error_message : string :=
  "Error decoding the model's JSON response.".
Definition invalid_format_message : string :=
  "Invalid response format from Bedrock.".

(** The [try] block of [send_prompt]. *)
Definition send_prompt_try (prompt_data : string) (verbose : bool)
  : M state json :=
  response <- call_invoke_model (request_for prompt_data) ;;
  response_data <- lift (json_loads response) ;;
  has_results <- lift (py_in "results" response_data) ;;
  nonempty <-
    (if has_results : bool then
       results <- lift (py_getitem response_data "results") ;;
       n <- lift (py_len results) ;;
       mret (0 <? n)%nat
     else mret false) ;;
  if nonempty : bool then
    results <- lift (py_getitem response_data "results") ;;
    result <- lift (py_getitem0 results) ;;
    has_text <- lift (py_in "outputText" result) ;;
    if has_text : bool then
      output_text <- lift (py_getitem result "outputText") ;;
      try_except
        (structured_output <- lift (py_json_loads output_text) ;;
         (if verbose
          then print (PrintResponse prompt_data structured_output)
          else mret tt) ;;;
         mret structured_output)
        is_JSONDecodeError
        (fun _ => mret (error_dict decode_error_message))
    else mret (error_dict invalid_format_message)
  else mret (error_dict invalid_format_message).

Definition send_prompt (prompt_data : string) (verbose : bool)
  : M state json :=
  try_except (send_prompt_try prompt_data verbose)
             is_Exception
             (fun e => mret (error_dict ("Error occurred: " ++ exn_str e))).

(** The row appended when ['error' in ai_response]. *)
Definition error_row (id : cell) (reply : json) : report_row :=
  {| support_tick_id := id;
     category := JStr "Error";
     tags := JStr "Error";
     priority := JStr "Error";
     suggested_eta := JStr "Error";
     generated_reply := reply;
     sentiment := JStr "Error" |}.

(** The [if 'error' in ai_response: ... else: ...] of the loop body:
    the dictionary appended to [generated_data]. *)
Definition build_row (cols : list string) (row : list cell)
           (ai_response : json) : result report_row :=
  rbind (py_in "error" ai_response) (fun has_error =>
  if has_error : bool then
    rbind (row_get cols row "support_tick_id") (fun id =>
    rbind (py_getitem ai_response "error") (fun reply =>
    Ret (error_row id reply)))
  else
    rbind (row_get cols row "support_tick_id") (fun id =>
    rbind (py_get ai_response "category" (JStr "Unknown")) (fun cat =>
    rbind (py_get ai_response "tags" (JArr [])) (fun tags_value =>
    rbind (py_join ", " tags_value) (fun tgs =>
    rbind (py_get ai_response "priority" (JStr "Unknown")) (fun prio =>
    rbind (py_get ai_response "suggested_eta" (JStr "Unknown")) (fun eta =>
    rbind (py_get ai_response "generated_reply"
                  (JStr "No reply generated")) (fun reply =>
    rbind (py_get ai_response "sentiment" (JStr "Unknown")) (fun sent =>
    Ret {| support_tick_id := id;
           category := cat;
           tags := JStr tgs;
           priority := prio;
           suggested_eta := eta;
           generated_reply := reply;
           sentiment := sent |}))))))))).

(** The body of the [for index, row in df.iterrows()] loop. *)
Definition process_row (cols : list string) (verbose : bool)
           (row : list cell) : M state report_row :=
  support_ticket_text <- lift (row_get cols row "support_ticket_text") ;;
  prompt <- lift (render (cell_str support_ticket_text)) ;;
  ai_response <- send_prompt prompt verbose ;;
  lift (build_row cols row ai_response).

(** The loop: [generated_data] grows by one dictionary per row. *)
Fixpoint process_rows (cols : list string) (verbose : bool)
         (todo : list (list cell)) (generated_data : list report_row)
  : M state (list report_row) :=
  match todo with
  | [] => mret generated_data
  | row :: todo' =>
      r <- process_row cols verbose row ;;
      process_rows cols verbose todo' (generated_data ++ [r])
  end.

Definition missing_columns_message : string :=
  "Error: Required columns ('support_tick_id', 'support_ticket_text') are missing from the dataset.".

(** [process_tickets], from the frame that [pd.read_csv(input_csv)]
    returned. *)
Definition process_tickets (df : DataFrame) (output_csv : string)
           (verbose : bool) : M state unit :=
  if negb (has_column "support_tick_id" (columns df))
     || negb (has_column "support_ticket_text" (columns df))
  then print (PrintLine missing_columns_message)
  else
    generated_data <- process_rows (columns df) verbose (rows df) [] ;;
    to_csv output_csv generated_data ;;;
    print (PrintLine ("Processed data saved to " ++ output_csv)).

(** *** Vocabulary for the properties *)

(** The state once the endpoint has been called with [rq] and has left
    the world [w']. *)
Definition after_call (st : state) (rq : request) (w' : World)
  : state :=
  {| world := w'; calls := calls st ++ [rq];
     stdout := stdout st; written := written st |}.

(** The state after more console output. *)
Definition with_output (st : state) (evs : list console_event)
  : state :=
  {| world := world st; calls := calls st;
     stdout := stdout st ++ evs; written := written st |}.

(** The endpoint answered with the expected envelope: the body decodes to
    an object whose [results] is a list that starts with an object
    whose [outputText] is the string [completion]. *)
Definition delivers (out : result string) (completion : string) : Prop :=
  exists body envelope first others,
    out = Ret body /\
    json_loads body = Ret (JObj envelope) /\
    dict_lookup "results" envelope = Some (JArr (JObj first :: others)) /\
    dict_lookup "outputText" first = Some (JStr completion).

(** The ticket [row], with identifier [id], is one whose prompt the
    endpoint, in the state [st], answers with [out], leaving the world
    [w']. *)
Definition ticket_outcome (cols : list string) (row : list cell)
           (st : state) (id : cell) (out : result string) (w' : World)
  : Prop :=
  exists text,
    row_get cols row "support_ticket_text" = Ret text /\
    row_get cols row "support_tick_id" = Ret id /\
    invoke_model (request_for (prompt_of (cell_str text))) (world st)
    = (out, w').

Definition ticket_answered (cols : list string) (row : list cell)
           (st : state) (id : cell) (completion : string) : Prop :=
  exists out w',
    ticket_outcome cols row st id out w' /\ delivers out completion.

(** [effects l m]: the computation [m] sends exactly the requests [l],
    in that order, and writes no table. *)
Definition effects {A} (l : list request) (m : M state A) : Prop :=
  forall st,
    calls (snd (m st)) = (calls st ++ l)%list
    /\ written (snd (m st)) = written st.

End Bedrock.

(* ===================================================================== *)
(** ** A reference JSON decoder                                          *)
(* ===================================================================== *)

(** [ref_loads] follows the scanner of CPython's [json] module on 8-bit
    text: objects (a repeated key keeps its first position and its last
    value), arrays, strings with their escapes, numbers ([int] without
    fraction and exponent, [float] otherwise), [true], [false], [null] and
    the non-standard [NaN], [Infinity], [-Infinity].  A syntax error is a
    [JSONDecodeError] whose message names the kind of error (CPython
    appends the position).  Two limits are reported as exceptions of
    their own: an escape [\uXXXX] above U+00FF has no character in this
    model of [str], and nesting deeper than the fuel is a
    [RecursionError].  The decoder instantiates the parameter
    [json_loads] in the examples. *)
Module RefJSON.

Definition decode_error {A} (msg : string) : result A :=
  Raise (Exn JSONDecodeError msg).

Definition is_ws (c : ascii) : bool :=
  let n := nat_of_ascii c in
  Nat.eqb n 32 || Nat.eqb n 9 || Nat.eqb n 10 || Nat.eqb n 13.

Fixpoint skip_ws (s : string) : string :=
  match s with
  | String c s' => if is_ws c then skip_ws s' else s
  | EmptyString => s
  end.

Definition is_digit (c : ascii) : bool :=
  let n := nat_of_ascii c in Nat.leb 48 n && Nat.leb n 57.

Definition digit_val (c : ascii) : Z := Z.of_nat (nat_of_ascii c) - 48.

Definition hex_val (c : ascii) : option nat :=
  let n := nat_of_ascii c in
  if Nat.leb 48 n && Nat.leb n 57 then Some (n - 48)
  else if Nat.leb 97 n && Nat.leb n 102 then Some (n - 87)
  else if Nat.leb 65 n && Nat.leb n 70 then Some (n - 55)
  else None.

(** The longest prefix of digits, and what follows. *)
Fixpoint take_digits (s : string) : string * string :=
  match s with
  | String c s' =>
      if is_digit c
      then let (d, r) := take_digits s' in (String c d, r)
      else (EmptyString, s)
  | EmptyString => (EmptyString, s)
  end.

Fixpoint digits_value (acc : Z) (s : string) : Z :=
  match s with
  | String c s' => digits_value (10 * acc + digit_val c) s'
  | EmptyString => acc
  end.

Fixpoint strip_prefix (p s : string) : option string :=
  match p with
  | EmptyString => Some s
  | String a p' =>
      match s with
      | String b s' => if Ascii.eqb a b then strip_prefix p' s' else None
      | EmptyString => None
      end
  end.

(** The body of a string literal, after its opening quote. *)
Fixpoint scan_string (s : string) : result (string * string) :=
  match s with
  | EmptyString => decode_error "Unterminated string starting at"
  | String c s' =>
      if Ascii.eqb c (ascii_of_nat 34) then Ret (EmptyString, s')
      else if Ascii.eqb c "\"%char then
        match s' with
        | EmptyString => decode_error "Unterminated string starting at"
        | String e s'' =>
            let simple (x : nat) :=
              rbind (scan_string s'')
                    (fun '(t, r) => Ret (String (ascii_of_nat x) t, r)) in
            if Ascii.eqb e (ascii_of_nat 34) then simple 34
            else if Ascii.eqb e "\"%char then simple 92
            else if Ascii.eqb e "/"%char then simple 47
            else if Ascii.eqb e "b"%char then simple 8
            else if Ascii.eqb e "f"%char then simple 12
            else if Ascii.eqb e "n"%char then simple 10
            else if Ascii.eqb e "r"%char then simple 13
            else if Ascii.eqb e "t"%char then simple 9
            else if Ascii.eqb e "u"%char then
              match s'' with
              | String h1 (String h2 (String h3 (String h4 s5))) =>
                  match hex_val h1, hex_val h2, hex_val h3, hex_val h4 with
                  | Some a, Some b, Some c3, Some d =>
                      let code := ((a * 16 + b) * 16 + c3) * 16 + d in
                      if Nat.ltb code 256 then
                        rbind (scan_string s5)
                              (fun '(t, r) =>
                                 Ret (String (ascii_of_nat code) t, r))
                      else
                        Raise (Exn (OtherException "UnsupportedCodePoint")
                                   "escape above U+00FF")
                  | _, _, _, _ => decode_error "Invalid \uXXXX escape"
                  end
              | _ => decode_error "Invalid \uXXXX escape"
              end
            else decode_error "Invalid \escape"
        end
      else if Nat.ltb (nat_of_ascii c) 32
      then decode_error "Invalid control character at"
      else rbind (scan_string s')
                 (fun '(t, r) => Ret (String c t, r))
  end.

(** A number at the head of [s]: sign, integer part, and a fraction and
    an exponent when they are complete. *)
Definition scan_number (s : string) : option (json * string) :=
  let (neg, s1) :=
    match s with
    | String c s' => if Ascii.eqb c "-"%char then (true, s') else (false, s)
    | EmptyString => (false, s)
    end in
  let int_part : option (string * string) :=
    match s1 with
    | String c s' =>
        if Ascii.eqb c "0"%char then Some ("0", s')
        else if is_digit c then Some (take_digits s1)
        else None
    | EmptyString => None
    end in
  match int_part with
  | None => None
  | Some (ds, s2) =>
      let (frac, s3) :=
        match s2 with
        | String c s' =>
            if Ascii.eqb c "."%char then
              match take_digits s' with
              | (EmptyString, _) => (EmptyString, s2)
              | (fd, r) => ("." ++ fd, r)
              end
            else (EmptyString, s2)
        | EmptyString => (EmptyString, s2)
        end in
      let (expo, s4) :=
        match s3 with
        | String c s' =>
            if Ascii.eqb c "e"%char || Ascii.eqb c "E"%char then
              let (sign, s'') :=
                match s' with
                | String g r =>
                    if Ascii.eqb g "+"%char || Ascii.eqb g "-"%char
                    then (String g EmptyString, r)
                    else (EmptyString, s')
                | EmptyString => (EmptyString, s')
                end in
              match take_digits s'' with
              | (EmptyString, _) => (EmptyString, s3)
              | (ed, r) => (String c sign ++ ed, r)
              end
            else (EmptyString, s3)
        | EmptyString => (EmptyString, s3)
        end in
      let sign := if neg then "-" else EmptyString in
      match frac, expo with
      | EmptyString, EmptyString =>
          let v := digits_value 0 ds in
          Some (JInt (if neg then - v else v), s4)
      | _, _ => Some (JFloat (sign ++ ds ++ frac ++ expo), s4)
      end
  end.

Inductive mode : Type :=
| MValue
| MItems (acc : list json)
| MMembers (acc : list (string * json)).

Definition starts_with (c : ascii) (s : string) : option string :=
  match s with
  | String c' s' => if Ascii.eqb c c' then Some s' else None
  | EmptyString => None
  end.

(** [scan fuel MValue s] decodes the value at the head of [s];
    [MItems acc] continues an array at the head of an item, [MMembers
    acc] an object at the head of a key. *)
Fixpoint scan (fuel : nat) (m : mode) (s : string) : result (json * string) :=
  match fuel with
  | O => Raise (Exn (OtherException "RecursionError")
                    "maximum recursion depth exceeded")
  | S fuel' =>
      match m with
      | MValue =>
          match s with
          | EmptyString => decode_error "Expecting value"
          | String c s' =>
              if Ascii.eqb c (ascii_of_nat 34) then
                rbind (scan_string s') (fun '(t, r) => Ret (JStr t, r))
              else if Ascii.eqb c lbrace then
                match starts_with rbrace (skip_ws s') with
                | Some r => Ret (JObj [], r)
                | None => scan fuel' (MMembers []) (skip_ws s')
                end
              else if Ascii.eqb c "["%char then
                match starts_with "]"%char (skip_ws s') with
                | Some r => Ret (JArr [], r)
                | None => scan fuel' (MItems []) (skip_ws s')
                end
              else
                match strip_prefix "null" s, strip_prefix "true" s,
                      strip_prefix "false" s with
                | Some r, _, _ => Ret (JNull, r)
                | _, Some r, _ => Ret (JBool true, r)
                | _, _, Some r => Ret (JBool false, r)
                | _, _, _ =>
                    match scan_number s with
                    | Some vr => Ret vr
                    | None =>
                        match strip_prefix "NaN" s,
                              strip_prefix "Infinity" s,
                              strip_prefix "-Infinity" s with
                        | Some r, _, _ => Ret (JFloat "NaN", r)
                        | _, Some r, _ => Ret (JFloat "Infinity", r)
                        | _, _, Some r => Ret (JFloat "-Infinity", r)
                        | _, _, _ => decode_error "Expecting value"
                        end
                    end
                end
          end
      | MItems acc =>
          rbind (scan fuel' MValue s) (fun '(v, r) =>
          let r' := skip_ws r in
          match starts_with "]"%char r', starts_with ","%char r' with
          | Some r'', _ => Ret (JArr (acc ++ [v]), r'')
          | _, Some r'' => scan fuel' (MItems (acc ++ [v])) (skip_ws r'')
          | _, _ => decode_error "Expecting ',' delimiter"
          end)
      | MMembers acc =>
          match starts_with (ascii_of_nat 34) s with
          | None =>
              decode_error
                "Expecting property name enclosed in double quotes"
          | Some s' =>
              rbind (scan_string s') (fun '(k, r) =>
              match starts_with ":"%char (skip_ws r) with
              | None => decode_error "Expecting ':' delimiter"
              | Some r1 =>
                  rbind (scan fuel' MValue (skip_ws r1)) (fun '(v, r2) =>
                  let r3 := skip_ws r2 in
                  let acc' := dict_set k v acc in
                  match starts_with rbrace r3, starts_with ","%char r3 with
                  | Some r4, _ => Ret (JObj acc', r4)
                  | _, Some r4 => scan fuel' (MMembers acc') (skip_ws r4)
                  | _, _ => decode_error "Expecting ',' delimiter"
                  end)
              end)
          end
      end
  end.

Definition ref_loads (s : string) : result json :=
  match scan (2 * String.length s + 2) MValue (skip_ws s) with
  | Ret (v, r) =>
      match skip_ws r with
      | EmptyString => Ret v
      | _ => decode_error "Extra data"
      end
  | Raise e => Raise e
  end.

End RefJSON.

(* ===================================================================== *)
(** ** support_ticket.py: the LangChain script                           *)
(* ===================================================================== *)

(** The [model_kwargs] of the module-level [llm]. *)
Definition llm_model_kwargs : json :=
  JObj [ ("temperature", JFloat "0.1"); ("maxTokenCount", JInt 1000) ].

(** The generation configuration carried by a request. *)
Definition generation_config_of (rq : request) : option json :=
  match body rq with
  | JObj d => dict_lookup "textGenerationConfig" d
  | _ => None
  end.

(** Temperature 0.0, top-p 1.0 and at most 1000 tokens. *)
Definition fixed_generation_config (cfg : json) : Prop :=
  match cfg with
  | JObj d =>
      dict_lookup "temperature" d = Some (JFloat "0.0")
      /\ dict_lookup "topP" d = Some (JFloat "1.0")
      /\ dict_lookup "maxTokenCount" d = Some (JInt 1000)
  | _ => False
  end.


(** The dictionary appended when a ticket could not be processed. *)
Definition default_error_response : json :=
  JObj [ ("category", JStr "error");
         ("tags", JArr []);
         ("priority", JStr "low");
         ("suggested_eta", JStr "N/A");
         ("generated_reply", JStr "Error processing ticket.");
         ("sentiment", JStr "neutral") ].

Definition columns_error : exn :=
  Exn ValueError
      "The input CSV file must contain 'support_tick_id' and 'support_ticket_text' columns.".

Section LangChain.

(** [chain_run text w] is [chain.run({"ticket_text": text})] in the
    world [w]: the completion, or an exception. *)
Variable World : Type.
Variable chain_run : cell -> World -> result string * World.
Variable json_loads : string -> result json.

(** The state of the script: the world, the inputs given to the chain
    so far, the module-level variable [response] (unbound until the
    chain has answered once), the console, and the tables written (the
    rows of [final_df]). *)
Record script_state : Type :=
  { s_world : World;
    s_calls : list cell;
    s_response : option string;
    s_stdout : list console_event;
    s_written : list (string * list (list cell * json)) }.

Definition s_print (ev : console_event) : M script_state unit :=
  fun st =>
    (Ret tt, {| s_world := s_world st; s_calls := s_calls st;
                s_response := s_response st;
                s_stdout := s_stdout st ++ [ev];
                s_written := s_written st |}).

(** [response = chain.run({"ticket_text": ticket_text})]. *)
Definition call_chain (ticket_text : cell) : M script_state string :=
  fun st =>
    let (out, w') := chain_run ticket_text (s_world st) in
    (out, {| s_world := w'; s_calls := s_calls st ++ [ticket_text];
             s_response := match out with
                           | Ret r => Some r
                           | Raise _ => s_response st
                           end;
             s_stdout := s_stdout st; s_written := s_written st |}).

(** Reading the variable [response]. *)
Definition read_response : M script_state string :=
  fun st =>
    match s_response st with
    | Some r => (Ret r, st)
    | None =>
        (Raise (Exn (OtherException "NameError")
                    "name 'response' is not defined"), st)
    end.

Definition s_to_csv (path : string) (table : list (list cell * json))
  : M script_state unit :=
  fun st =>
    (Ret tt, {| s_world := s_world st; s_calls := s_calls st;
                s_response := s_response st;
                s_stdout := s_stdout st;
                s_written := s_written st ++ [(path, table)] |}).

(** The body of the results loop: the value appended to [results]. *)
Definition script_row (cols : list string) (row : list cell)
  : M script_state json :=
  ticket_text <- lift (row_get cols row "support_ticket_text") ;;
  try_except
    (response <- call_chain ticket_text ;;
     parsed_response <- lift (json_loads response) ;;
     mret parsed_response)
    (fun e => is_JSONDecodeError e || is_Exception e)
    (fun e =>
       if is_JSONDecodeError e then
         id <- lift (row_get cols row "support_tick_id") ;;
         response <- read_response ;;
         s_print (PrintInvalidJSON id response) ;;;
         mret default_error_response
       else
         id <- lift (row_get cols row "support_tick_id") ;;
         s_print (PrintProcessingError id e) ;;;
         mret default_error_response).

Fixpoint script_loop (cols : list string) (todo : list (list cell))
         (results : list json) : M script_state (list json) :=
  match todo with
  | [] => mret results
  | row :: todo' =>
      r <- script_row cols row ;;
      script_loop cols todo' (results ++ [r])
  end.

Definition output_path : string := "processed_support_tickets.csv".

(** [pd.concat([support_df, pd.DataFrame(results)], axis=1)], which is
    library code: the rows of [final_df], each input row with the
    processed columns that pandas puts beside it, or the exception that
    [pd.DataFrame] or [pd.concat] raises (an entry of [results] that is
    no dictionary is not a row that [pd.DataFrame] accepts among
    dictionaries). *)
Variable concat_frames :
  DataFrame -> list json -> result (list (list cell * json)).

(** The script, from the frame that [pd.read_csv(file_path)] returned.
    Nothing catches what the lines after the loop raise. *)
Definition script (support_df : DataFrame) : M script_state unit :=
  if negb (has_column "support_tick_id" (columns support_df))
     || negb (has_column "support_ticket_text" (columns support_df))
  then mraise columns_error
  else
    results <- script_loop (columns support_df) (rows support_df) [] ;;
    final_df <- lift (concat_frames support_df results) ;;
    s_to_csv output_path final_df.

End LangChain.

(* ===================================================================== *)
(** ** A scripted endpoint                                               *)
(* ===================================================================== *)

(** A fake endpoint for the examples: the world is the list of canned
    outcomes still to be served, one per call. *)
Module Fake.

Definition World : Type := list (result string).

Definition exhausted : exn :=
  Exn (OtherException "EndpointConnectionError") "no canned answer left".

Definition invoke_model (rq : request) (w : World)
  : result string * World :=
  match w with
  | out :: w' => (out, w')
  | [] => (Raise exhausted, [])
  end.

Definition chain_run (ticket_text : cell) (w : World)
  : result string * World :=
  match w with
  | out :: w' => (out, w')
  | [] => (Raise exhausted, [])
  end.

(** A JSON string literal for [s] (quotes and backslashes escaped). *)
Fixpoint escape (s : string) : string :=
  match s with
  | EmptyString => EmptyString
  | String c s' =>
      if Ascii.eqb c (ascii_of_nat 34) || Ascii.eqb c "\"%char
      then String "\"%char (String c (escape s'))
      else String c (escape s')
  end.

(** The response body that carries [completion] as its output text. *)
Definition envelope (completion : string) : string :=
  "{" ++ quoted "results" ++ ": [{" ++ quoted "outputText" ++ ": "
      ++ quoted (escape completion) ++ "}]}".

Definition answers (completion : string) : result string :=
  Ret (envelope completion).

Definition fails (message : string) : result string :=
  Raise (Exn (OtherException "EndpointConnectionError") message).

Definition start (w : World) : state World :=
  {| world := w; calls := []; stdout := []; written := [] |}.

Definition script_start (w : World) : script_state World :=
  {| s_world := w; s_calls := []; s_response := None;
     s_stdout := []; s_written := [] |}.

(** [process_tickets] against the scripted endpoint and the reference
    decoder. *)
Definition run (df : DataFrame) (w : World) : result unit * state World :=
  process_tickets invoke_model RefJSON.ref_loads df "out.csv" false
                  (start w).

Definition tickets (rs : list (list cell)) : DataFrame :=
  {| columns := ["support_tick_id"; "support_ticket_text"]; rows := rs |}.

(** A stand-in for pandas in the examples, which use it on dictionaries
    only, one per row: the entries are laid beside their rows; a list
    with an entry that is no dictionary is refused. *)
Definition is_dict (v : json) : bool :=
  match v with JObj _ => true | _ => false end.

Definition concat_frames (df : DataFrame) (results : list json)
  : result (list (list cell * json)) :=
  if forallb is_dict results then Ret (combine (rows df) results)
  else Raise (Exn AttributeError "object has no attribute 'keys'").

End Fake.

(* ===================================================================== *)
(** ** Example tickets and completions                                   *)
(* ===================================================================== *)

Module Examples.

Definition cols : list string := ["support_tick_id"; "support_ticket_text"].

Definition T1 : list cell := [CStr "T1"; CStr "My laptop won't boot"].
Definition T2 : list cell := [CStr "T2"; CStr "Where is my invoice?"].

(** [{"k1": v1, ...}] as JSON text, the values given as JSON text. *)
Fixpoint members_text (kvs : list (string * string)) : string :=
  match kvs with
  | [] => EmptyString
  | [(k, v)] => quoted k ++ ": " ++ v
  | (k, v) :: rest => quoted k ++ ": " ++ v ++ ", " ++ members_text rest
  end.

Definition object_text (kvs : list (string * string)) : string :=
  "{" ++ members_text kvs ++ "}".

(** A completion with all six fields. *)
Definition full_reply : string :=
  object_text
    [ ("category", quoted "hardware issues");
      ("tags", "[" ++ quoted "boot failure" ++ "]");
      ("priority", quoted "high");
      ("suggested_eta", quoted "2 hours");
      ("generated_reply", quoted "We're sorry...");
      ("sentiment", quoted "negative") ].

(** The same completion without its [tags]. *)
Definition no_tags_reply : string :=
  object_text
    [ ("category", quoted "hardware issues");
      ("priority", quoted "high");
      ("suggested_eta", quoted "2 hours");
      ("generated_reply", quoted "We're sorry...");
      ("sentiment", quoted "negative") ].

Definition no_tags_dict : list (string * json) :=
  [ ("category", JStr "hardware issues");
    ("priority", JStr "high");
    ("suggested_eta", JStr "2 hours");
    ("generated_reply", JStr "We're sorry...");
    ("sentiment", JStr "negative") ].

(** A completion with all six fields and a key [error] besides. *)
Definition error_key_reply : string :=
  object_text
    [ ("category", quoted "hardware issues");
      ("tags", "[" ++ quoted "boot failure" ++ "]");
      ("priority", quoted "high");
      ("suggested_eta", quoted "2 hours");
      ("generated_reply", quoted "We're sorry...");
      ("sentiment", quoted "negative");
      ("error", quoted "none") ].

Definition error_key_dict : list (string * json) :=
  [ ("category", JStr "hardware issues");
    ("tags", JArr [JStr "boot failure"]);
    ("priority", JStr "high");
    ("suggested_eta", JStr "2 hours");
    ("generated_reply", JStr "We're sorry...");
    ("sentiment", JStr "negative");
    ("error", JStr "none") ].

(** A completion with a category and a key [error] only. *)
Definition partial_error_reply : string :=
  object_text [ ("category", quoted "billing");
                ("error", quoted "quota exceeded") ].

(** An object whose only key is [error], with the text that
    [send_prompt] uses for an undecodable completion. *)
Definition mimic_reply : string :=
  object_text [ ("error", quoted decode_error_message) ].

(** The object wrapped in a list. *)
Definition wrapped_reply : string := "[" ++ full_reply ++ "]".

Definition not_json : string := "not json".

End Examples.

(* ===================================================================== *)
(** ** Support_ticket_st.py: the interactive front end                   *)
(* ===================================================================== *)

(** What the app puts on the page, one event per Streamlit call. *)
Inductive ui_event : Type :=
| StTitle (s : string)
| StWrite (s : string)
| StTextArea (label : string)
| StButton (label : string)
| StSubheader (s : string)
| StJson (v : json)
| StError (body : json)
| StWarning (s : string).

(** [c.isspace()] for a character of the 8-bit range. *)
Definition py_isspace (c : ascii) : bool :=
  let n := nat_of_ascii c in
  (Nat.leb 9 n && Nat.leb n 13) || (Nat.leb 28 n && Nat.leb n 32)
  || Nat.eqb n 133 || Nat.eqb n 160.

Fixpoint str_lstrip (s : string) : string :=
  match s with
  | String c s' => if py_isspace c then str_lstrip s' else s
  | EmptyString => s
  end.

Fixpoint str_rstrip (s : string) : string :=
  match s with
  | String c s' =>
      match str_rstrip s' with
      | EmptyString => if py_isspace c then EmptyString
                       else String c EmptyString
      | r => String c r
      end
  | EmptyString => s
  end.

(** [s.strip()]. *)
Definition str_strip (s : string) : string := str_rstrip (str_lstrip s).

(** [bool(s)] for a string. *)
Definition str_truthy (s : string) : bool :=
  match s with EmptyString => false | String _ _ => true end.

Section Streamlit.

Variable World : Type.
Variable invoke_model : request -> World -> result string * World.
Variable json_loads : string -> result json.

(** Whether the float denoted by a literal is zero (the rounding of the
    literal to a double is not modelled). *)
Variable float_is_zero : string -> bool.

(** [bool(v)] for a decoded value, as [if ai_response:] tests it. *)
Definition py_truthy (v : json) : bool :=
  match v with
  | JNull => false
  | JBool b => b
  | JInt z => negb (Z.eqb z 0)
  | JFloat literal => negb (float_is_zero literal)
  | JStr s => str_truthy s
  | JArr [] => false
  | JArr (_ :: _) => true
  | JObj [] => false
  | JObj (_ :: _) => true
  end.

(** The [try] block of the [send_prompt] of Support_ticket_st.py, which
    has no [verbose] parameter. *)
Definition st_send_prompt_try (prompt_data : string)
  : M (state World) json :=
  response <- call_invoke_model invoke_model (request_for prompt_data) ;;
  response_data <- lift (json_loads response) ;;
  has_results <- lift (py_in "results" response_data) ;;
  nonempty <-
    (if has_results : bool then
       results <- lift (py_getitem response_data "results") ;;
       n <- lift (py_len results) ;;
       mret (0 <? n)%nat
     else mret false) ;;
  if nonempty : bool then
    results <- lift (py_getitem response_data "results") ;;
    result <- lift (py_getitem0 results) ;;
    has_text <- lift (py_in "outputText" result) ;;
    if has_text : bool then
      output_text <- lift (py_getitem result "outputText") ;;
      try_except
        (structured_output <- lift (py_json_loads json_loads output_text) ;;
         mret structured_output)
        is_JSONDecodeError
        (fun _ => mret (error_dict decode_error_message))
    else mret (error_dict invalid_format_message)
  else mret (error_dict invalid_format_message).

Definition st_send_prompt (prompt_data : string) : M (state World) json :=
  try_except (st_send_prompt_try prompt_data)
             is_Exception
             (fun e => mret (error_dict ("Error occurred: " ++ exn_str e))).

(** The state of one run of the app: the state behind [send_prompt] and
    the page. *)
Record app_state : Type :=
  { backend : state World; screen : list ui_event }.

Definition show (ev : ui_event) : M app_state unit :=
  fun s =>
    (Ret tt, {| backend := backend s; screen := screen s ++ [ev] |}).

Definition on_backend {A} (m : M (state World) A) : M app_state A :=
  fun s =>
    let (r, b') := m (backend s) in
    (r, {| backend := b'; screen := screen s |}).

Definition could_not_process : string :=
  "AI response could not be processed. Please try again.".
Definition please_enter : string := "Please enter a valid support ticket.".

(** [main] of Support_ticket_st.py, for one run of the script:
    [ticket_text] is what [st.text_area] returns and [clicked] what
    [st.button] returns. *)
Definition st_main (ticket_text : string) (clicked : bool)
  : M app_state unit :=
  show (StTitle "AI Support Ticket Assistant") ;;;
  show (StWrite "Enter your support ticket inquiry, and the AI will analyze and respond.") ;;;
  show (StTextArea "Enter your support ticket details here:") ;;;
  show (StButton "Analyze Ticket") ;;;
  if clicked then
    if str_truthy (str_strip ticket_text) then
      show (StWrite "Processing your ticket...") ;;;
      prompt <- lift (render ticket_text) ;;
      ai_response <- on_backend (st_send_prompt prompt) ;;
      if py_truthy ai_response then
        has_error <- lift (py_in "error" ai_response) ;;
        if has_error : bool then
          message <- lift (py_getitem ai_response "error") ;;
          show (StError message)
        else
          show (StSubheader "AI Response:") ;;;
          show (StJson ai_response)
      else show (StError (JStr could_not_process))
    else show (StWarning please_enter)
  else mret tt.

End Streamlit.

(* ===================================================================== *)
(** ** Support_ticket.py: [main]                                         *)
(* ===================================================================== *)

(** [main] of Support_ticket.py, from the frame read from
    ['Support_ticket_text_data.csv']: verbose, into
    ['Processed_Support_Tickets.csv']. *)
Definition main {World : Type}
           (invoke_model : request -> World -> result string * World)
           (json_loads : string -> result json) (df : DataFrame)
  : M (state World) unit :=
  process_tickets invoke_model json_loads df
                  "Processed_Support_Tickets.csv" true.

(* ===================================================================== *)
(** ** Further vocabulary for the properties                             *)
(* ===================================================================== *)

(** No brace occurs in [s]. *)
Fixpoint brace_free (s : string) : bool :=
  match s with
  | EmptyString => true
  | String c s' =>
      negb (Ascii.eqb c lbrace) && negb (Ascii.eqb c rbrace)
      && brace_free s'
  end.

(** The prompt of a ticket: [template] rendered with the text of the
    row (a row without that column has no prompt; [nan] stands in). *)
Definition row_prompt (cols : list string) (row : list cell) : string :=
  prompt_of (cell_str match row_get cols row "support_ticket_text" with
                      | Ret text => text
                      | Raise _ => nan
                      end).

(** Two states that differ in their console only. *)
Definition same_backend {World : Type} (st1 st2 : state World) : Prop :=
  world st1 = world st2 /\ calls st1 = calls st2
  /\ written st1 = written st2.

(** Two computations that, from states differing in their console only,
    give the same result and states differing in their console only. *)
Definition console_only {World A : Type} (m1 m2 : M (state World) A)
  : Prop :=
  forall st1 st2,
    same_backend st1 st2 ->
    fst (m1 st1) = fst (m2 st2)
    /\ same_backend (snd (m1 st1)) (snd (m2 st2)).

(** A computation that prints nothing. *)
Definition keeps_console {World A : Type} (m : M (state World) A) : Prop :=
  forall st, stdout (snd (m st)) = stdout st.

(** Every character of [s] is whitespace. *)
Fixpoint all_space (s : string) : bool :=
  match s with
  | EmptyString => true
  | String c s' => py_isspace c && all_space s'
  end.

(** A decoded completion from which [process_tickets] builds a row: a
    dictionary that has a key [error] or whose tags can be joined. *)
Definition row_buildable (v : json) : Prop :=
  exists d,
    v = JObj d
    /\ (dict_has "error" d = true
        \/ exists joined,
             py_join ", " (field_or d "tags" (JArr [])) = Ret joined).

(** The page of the app after a click on a ticket text that is not
    blank: the widgets, the progress line and [shown]; [b'] is the state
    behind [send_prompt]. *)
Definition page_after {World : Type} (s : app_state World)
           (b' : state World) (shown : list ui_event) : app_state World :=
  {| backend := b';
     screen :=
       (((((screen s ++ [StTitle "AI Support Ticket Assistant"])
           ++ [StWrite "Enter your support ticket inquiry, and the AI will analyze and respond."])
          ++ [StTextArea "Enter your support ticket details here:"])
         ++ [StButton "Analyze Ticket"])
        ++ [StWrite "Processing your ticket..."]) ++ shown |}.

(** The text of a ticket ([nan] stands in for a row without the
    column). *)
Definition row_text (cols : list string) (row : list cell) : cell :=
  match row_get cols row "support_ticket_text" with
  | Ret text => text
  | Raise _ => nan
  end.

(** The entry that stands for the outcome of the chain on one ticket: the
    decoded completion, or the default error response when the chain
    raised or the completion does not decode. *)
Definition script_entry (json_loads : string -> result json)
           (out : result string) : json :=
  let default :=
    JObj [ ("category", JStr "error");
           ("tags", JArr []);
           ("priority", JStr "low");
           ("suggested_eta", JStr "N/A");
           ("generated_reply", JStr "Error processing ticket.");
           ("sentiment", JStr "neutral") ] in
  match out with
  | Ret response =>
      match json_loads response with
      | Ret v => v
      | Raise _ => default
      end
  | Raise _ => default
  end.

(** The entries of the tickets [todo], in order, the chain being called
    once per ticket from the world [w] on. *)
Fixpoint script_entries {World : Type}
         (chain_run : cell -> World -> result string * World)
         (json_loads : string -> result json)
         (cols : list string) (todo : list (list cell)) (w : World)
  : list json :=
  match todo with
  | [] => []
  | row :: todo' =>
      let (out, w') := chain_run (row_text cols row) w in
      script_entry json_loads out
      :: script_entries chain_run json_loads cols todo' w'
  end.

(** Further completions for the examples. *)
Module MoreExamples.

(** Tags given as one string. *)
Definition string_tags_reply : string :=
  Examples.object_text [ ("category", quoted "network");
                         ("tags", quoted "vpn") ].

(** Tags given as [null]. *)
Definition null_tags_reply : string :=
  Examples.object_text [ ("category", quoted "network");
                         ("tags", "null") ].

(** An empty object. *)
Definition empty_reply : string := "{}".

End MoreExamples.

(** An endpoint and a chain that give the same answer to every call. *)
Module Steady.

Definition World : Type := unit.

Definition invoke_model (out : result string) (rq : request) (w : World)
  : result string * World := (out, w).

Definition chain_run (out : result string) (ticket_text : cell) (w : World)
  : result string * World := (out, w).

Definition start : state World :=
  {| world := tt; calls := []; stdout := []; written := [] |}.

Definition script_start : script_state World :=
  {| s_world := tt; s_calls := []; s_response := None;
     s_stdout := []; s_written := [] |}.

End Steady.

(* ===================================================================== *)
(** * Properties                                                         *)
(* ===================================================================== *)

(** ** Strings *)

Lemma prefix_app (n rest : string) : String.prefix n (n ++ rest) = true.
Proof.
  induction n as [|c n IH]; simpl.
  - destruct rest; reflexivity.
  - destruct (ascii_dec c c) as [_|ne]; [exact IH | exfalso; apply ne; reflexivity].
Qed.

Lemma str_contains_prefix (n hay : string) :
  String.prefix n hay = true -> str_contains n hay = true.
Proof. intros H. destruct hay; cbn [str_contains]; rewrite H; reflexivity. Qed.

Lemma str_contains_app (n before after : string) :
  str_contains n (before ++ n ++ after) = true.
Proof.
  induction before as [|c before IH]; simpl.
  - apply str_contains_prefix, prefix_app.
  - rewrite IH. apply orb_true_r.
Qed.

Lemma str_contains_suffix (n before : string) :
  str_contains n (before ++ n) = true.
Proof.
  pose proof (str_contains_app n before EmptyString) as H.
  replace (n ++ EmptyString) with n in H; [exact H|].
  clear H. induction n; simpl; congruence.
Qed.

(** ** The prompt (C6) *)

Lemma render_prompt_of (ticket_text : string) :
  render ticket_text = Ret (prompt_of ticket_text).
Proof. vm_compute. reflexivity. Qed.

(** C6.  For every ticket text, [template.format(ticket_text=text)]
    returns the text of the template before the placeholder, then the
    ticket text itself, then the text of the template after the
    placeholder: the ticket text is a substring of the prompt, whatever
    it contains, and the rest is the fixed instruction block, where the
    template is that block written as a format string (its literal braces
    doubled) around the one field [{ticket_text}].  The result is a
    function of the text alone. *)
Theorem render_embeds_ticket_text (ticket_text : string) :
  render ticket_text
    = Ret (template_prefix ++ ticket_text ++ template_suffix)
  /\ str_contains ticket_text
       (template_prefix ++ ticket_text ++ template_suffix) = true
  /\ template
     = escape_braces template_prefix ++ "{ticket_text}"
       ++ escape_braces template_suffix.
Proof.
  split; [apply render_prompt_of|].
  split; [apply str_contains_app|].
  vm_compute. reflexivity.
Qed.

(** ** The inference client *)

Section BedrockFacts.

Variable World : Type.
Variable invoke_model : request -> World -> result string * World.
Variable json_loads : string -> result json.

Ltac run_client :=
  unfold send_prompt, send_prompt_try, try_except, mbind, lift,
    mret, call_invoke_model, print, py_json_loads, after_call, with_output.

(** A delivered completion that decodes is returned as decoded. *)
Lemma send_prompt_decoded prompt verbose st out w' completion v :
  invoke_model (request_for prompt) (world st) = (out, w') ->
  delivers json_loads out completion ->
  json_loads completion = Ret v ->
  send_prompt invoke_model json_loads prompt verbose st
  = (Ret v,
     with_output (after_call st (request_for prompt) w')
       (if verbose then [PrintResponse prompt v] else [])).
Proof.
  intros Hcall (body & env & first & others & -> & Hbody & Hres & Htext) Hv.
  run_client. rewrite Hcall, Hbody. cbn. unfold dict_has. rewrite Hres. cbn.
  unfold dict_has. rewrite Htext. cbn. rewrite Hv.
  destruct verbose; cbn; [reflexivity|].
  rewrite app_nil_r. reflexivity.
Qed.

(** A delivered completion that is not valid JSON becomes the
    decode-error dictionary. *)
Lemma send_prompt_undecodable prompt verbose st out w' completion e :
  invoke_model (request_for prompt) (world st) = (out, w') ->
  delivers json_loads out completion ->
  json_loads completion = Raise e ->
  is_JSONDecodeError e = true ->
  send_prompt invoke_model json_loads prompt verbose st
  = (Ret (error_dict decode_error_message),
     after_call st (request_for prompt) w').
Proof.
  intros Hcall (body & env & first & others & -> & Hbody & Hres & Htext) Hv He.
  run_client. rewrite Hcall, Hbody. cbn. unfold dict_has. rewrite Hres. cbn.
  unfold dict_has. rewrite Htext. cbn. rewrite Hv, He. reflexivity.
Qed.

(** Exceptions raised by the interpreter itself are ordinary ones. *)
Lemma py_in_exception k v e : py_in k v = Raise e -> is_Exception e = true.
Proof. destruct v; cbn; intros H; inversion H; reflexivity. Qed.

Lemma py_getitem_exception v k e :
  py_getitem v k = Raise e -> is_Exception e = true.
Proof.
  destruct v; cbn; try (intros H; inversion H; reflexivity).
  destruct (dict_lookup k members); intros H; inversion H; reflexivity.
Qed.

Lemma py_getitem0_exception v e :
  py_getitem0 v = Raise e -> is_Exception e = true.
Proof.
  destruct v as [| | | |s|l|d]; cbn; try (intros H; inversion H; reflexivity).
  - destruct s; intros H; inversion H; reflexivity.
  - destruct l; intros H; inversion H; reflexivity.
Qed.

Lemma py_len_exception v e : py_len v = Raise e -> is_Exception e = true.
Proof. destruct v; cbn; intros H; inversion H; reflexivity. Qed.

(** A delivered completion on which the decoder raises something else
    than [JSONDecodeError] is handled by the outer handler. *)
Lemma send_prompt_decoder_raised prompt verbose st out w' completion e :
  invoke_model (request_for prompt) (world st) = (out, w') ->
  delivers json_loads out completion ->
  json_loads completion = Raise e ->
  is_JSONDecodeError e = false ->
  is_Exception e = true ->
  send_prompt invoke_model json_loads prompt verbose st
  = (Ret (error_dict ("Error occurred: " ++ exn_str e)),
     after_call st (request_for prompt) w').
Proof.
  intros Hcall (body & env & first & others & -> & Hbody & Hres & Htext)
         Hv He He'.
  run_client. rewrite Hcall, Hbody. cbn. unfold dict_has. rewrite Hres. cbn.
  unfold dict_has. rewrite Htext. cbn. rewrite Hv, He, He'. reflexivity.
Qed.

(** Either the endpoint delivers a completion, or [send_prompt] returns
    an error dictionary. *)
Lemma send_prompt_cases prompt verbose st out w' :
  invoke_model (request_for prompt) (world st) = (out, w') ->
  (forall e, out = Raise e -> is_Exception e = true) ->
  (forall body e, out = Ret body -> json_loads body = Raise e ->
                  is_Exception e = true) ->
  (exists completion, delivers json_loads out completion)
  \/ (exists message,
        send_prompt invoke_model json_loads prompt verbose st
        = (Ret (error_dict message), after_call st (request_for prompt) w')
        /\ (forall e, out = Raise e ->
                      message = "Error occurred: " ++ exn_str e)).
Proof.
  intros Hcall Hexn Hdec.
  destruct out as [body|e].
  2:{ right. run_client. rewrite Hcall, (Hexn e eq_refl).
      eexists; split; [reflexivity|].
      intros e' H; inversion H; reflexivity. }
  assert (Hdone : forall (r : result json * state World) m,
            r = (Ret (error_dict m), after_call st (request_for prompt) w') ->
            exists message, r = (Ret (error_dict message),
                                 after_call st (request_for prompt) w')
              /\ (forall e, Ret body = Raise e ->
                            message = "Error occurred: " ++ exn_str e)).
  { intros r m ->. exists m. split; [reflexivity|]. intros e H; inversion H. }
  destruct (json_loads body) as [v|e] eqn:Hbody.
  2:{ right. apply Hdone with (m := "Error occurred: " ++ exn_str e).
      run_client. rewrite Hcall, Hbody, (Hdec body e eq_refl Hbody).
      reflexivity. }
  destruct (py_in "results" v) as [has_results|e] eqn:H1.
  2:{ right. eapply Hdone. run_client.
      rewrite Hcall, Hbody, H1, (py_in_exception _ _ H1). reflexivity. }
  destruct has_results.
  2:{ right. eapply Hdone. run_client. rewrite Hcall, Hbody, H1.
      reflexivity. }
  destruct (py_getitem v "results") as [results|e] eqn:H2.
  2:{ right. eapply Hdone. run_client.
      rewrite Hcall, Hbody, H1, H2, (py_getitem_exception _ _ H2).
      reflexivity. }
  destruct (py_len results) as [n|e] eqn:H3.
  2:{ right. eapply Hdone. run_client.
      rewrite Hcall, Hbody, H1, H2, H3, (py_len_exception _ H3).
      reflexivity. }
  destruct (0 <? n)%nat eqn:Hn.
  2:{ right. eapply Hdone. run_client.
      rewrite Hcall, Hbody, H1, H2, H3, Hn. reflexivity. }
  destruct (py_getitem0 results) as [result|e] eqn:H4.
  2:{ right. eapply Hdone. run_client.
      rewrite Hcall, Hbody, H1, H2, H3, Hn, H4, (py_getitem0_exception _ H4).
      reflexivity. }
  destruct (py_in "outputText" result) as [has_text|e] eqn:H5.
  2:{ right. eapply Hdone. run_client.
      rewrite Hcall, Hbody, H1, H2, H3, Hn, H4, H5,
        (py_in_exception _ _ H5).
      reflexivity. }
  destruct has_text.
  2:{ right. eapply Hdone. run_client.
      rewrite Hcall, Hbody, H1, H2, H3, Hn, H4, H5. reflexivity. }
  destruct (py_getitem result "outputText") as [output_text|e] eqn:H6.
  2:{ right. eapply Hdone. run_client.
      rewrite Hcall, Hbody, H1, H2, H3, Hn, H4, H5, H6,
        (py_getitem_exception _ _ H6).
      reflexivity. }
  destruct output_text as [| | | |completion| |];
    try (right; eapply Hdone; run_client;
         rewrite Hcall, Hbody, H1, H2, H3, Hn, H4, H5, H6; reflexivity).
  left. exists completion.
  destruct v as [| | | | | |env]; try discriminate H2.
  cbn in H2. destruct (dict_lookup "results" env) as [x|] eqn:Hres;
    inversion H2; subst x.
  destruct result as [| | | | | |first]; try discriminate H6.
  cbn in H6. destruct (dict_lookup "outputText" first) as [x|] eqn:Htext;
    inversion H6; subst x.
  destruct results as [| | | |s|l|]; try discriminate H4.
  - destruct s; discriminate H4.
  - destruct l as [|x others]; inversion H4; subst x.
    exists body, env, first, others. repeat split; assumption.
Qed.

(** Whatever the endpoint does short of delivering a completion,
    [send_prompt] returns an error dictionary. *)
Lemma send_prompt_failure prompt verbose st out w' :
  invoke_model (request_for prompt) (world st) = (out, w') ->
  (forall e, out = Raise e -> is_Exception e = true) ->
  (forall body e, out = Ret body -> json_loads body = Raise e ->
                  is_Exception e = true) ->
  (forall completion, ~ delivers json_loads out completion) ->
  exists message,
    send_prompt invoke_model json_loads prompt verbose st
    = (Ret (error_dict message), after_call st (request_for prompt) w')
    /\ (forall e, out = Raise e -> message = "Error occurred: " ++ exn_str e).
Proof.
  intros Hcall Hexn Hdec Hnot.
  destruct (send_prompt_cases verbose st Hcall Hexn Hdec)
    as [[completion Hdel]|H]; [|exact H].
  exfalso. exact (Hnot completion Hdel).
Qed.

(** With ordinary exceptions only, [send_prompt] raises nothing. *)
Lemma send_prompt_returns prompt verbose st out w' :
  invoke_model (request_for prompt) (world st) = (out, w') ->
  (forall e, out = Raise e -> is_Exception e = true) ->
  (forall body e, out = Ret body -> json_loads body = Raise e ->
                  is_Exception e = true) ->
  (forall completion e, delivers json_loads out completion ->
                        json_loads completion = Raise e ->
                        is_Exception e = true) ->
  exists v,
    fst (send_prompt invoke_model json_loads prompt verbose st) = Ret v.
Proof.
  intros Hcall Hexn Hdec Hcompl.
  destruct (send_prompt_cases verbose st Hcall Hexn Hdec)
    as [[completion Hdel]|(message & H & _)].
  - destruct (json_loads completion) as [v|e] eqn:Hv.
    + exists v. rewrite (send_prompt_decoded verbose st Hcall Hdel Hv).
      reflexivity.
    + destruct (is_JSONDecodeError e) eqn:He.
      * eexists.
        rewrite (send_prompt_undecodable verbose st Hcall Hdel Hv He).
        reflexivity.
      * eexists.
        rewrite (send_prompt_decoder_raised verbose st Hcall Hdel Hv He
                   (Hcompl _ _ Hdel Hv)).
        reflexivity.
  - eexists. rewrite H. reflexivity.
Qed.

(** ** One ticket *)

Lemma build_row_error_key cols row id d reply :
  row_get cols row "support_tick_id" = Ret id ->
  dict_lookup "error" d = Some reply ->
  build_row cols row (JObj d) = Ret (error_row id reply).
Proof.
  intros Hid Herr. unfold build_row. cbn. unfold dict_has.
  rewrite Herr. cbn. rewrite Hid. cbn. rewrite ?Herr. reflexivity.
Qed.

Lemma build_row_error_dict cols row id message :
  row_get cols row "support_tick_id" = Ret id ->
  build_row cols row (error_dict message) = Ret (error_row id (JStr message)).
Proof. intros Hid. apply build_row_error_key; [assumption | reflexivity]. Qed.

Lemma build_row_fields cols row id d joined :
  row_get cols row "support_tick_id" = Ret id ->
  dict_lookup "error" d = None ->
  py_join ", " (field_or d "tags" (JArr [])) = Ret joined ->
  build_row cols row (JObj d)
  = Ret {| support_tick_id := id;
           category := field_or d "category" (JStr "Unknown");
           tags := JStr joined;
           priority := field_or d "priority" (JStr "Unknown");
           suggested_eta := field_or d "suggested_eta" (JStr "Unknown");
           generated_reply :=
             field_or d "generated_reply" (JStr "No reply generated");
           sentiment := field_or d "sentiment" (JStr "Unknown") |}.
Proof.
  intros Hid Herr Hjoin. unfold build_row. cbn. unfold dict_has.
  rewrite Herr. cbn. rewrite Hid. cbn.
  unfold field_or in Hjoin. rewrite Hjoin. reflexivity.
Qed.

Ltac run_row :=
  unfold process_row, mbind, lift; cbn beta iota.

(** With a delivered completion that decodes to [v], the loop body builds
    its row from [v]. *)
Lemma process_row_decoded cols verbose row st id completion v :
  ticket_answered invoke_model json_loads cols row st id completion ->
  json_loads completion = Ret v ->
  fst (process_row invoke_model json_loads cols verbose row st)
  = build_row cols row v.
Proof.
  intros (out & w' & (text & Htext & Hid & Hcall) & Hdel) Hv.
  run_row. rewrite Htext, render_prompt_of.
  rewrite (send_prompt_decoded _ _ Hcall Hdel Hv).
  destruct (build_row cols row v); reflexivity.
Qed.

(** With a delivered completion that is not valid JSON, the loop body
    builds the row of the decode-error dictionary. *)
Lemma process_row_undecodable cols verbose row st id completion e :
  ticket_answered invoke_model json_loads cols row st id completion ->
  json_loads completion = Raise e ->
  is_JSONDecodeError e = true ->
  fst (process_row invoke_model json_loads cols verbose row st)
  = Ret (error_row id (JStr decode_error_message)).
Proof.
  intros (out & w' & (text & Htext & Hid & Hcall) & Hdel) Hv He.
  run_row. rewrite Htext, render_prompt_of.
  rewrite (send_prompt_undecodable _ _ Hcall Hdel Hv He).
  rewrite (build_row_error_dict _ _ _ Hid). reflexivity.
Qed.

(** The loop appends the row of a ticket and goes on with the next. *)
Lemma process_rows_step cols verbose row todo generated_data st r :
  fst (process_row invoke_model json_loads cols verbose row st) = Ret r ->
  process_rows invoke_model json_loads cols verbose (row :: todo)
               generated_data st
  = process_rows invoke_model json_loads cols verbose todo
                 (generated_data ++ [r])
                 (snd (process_row invoke_model json_loads cols verbose
                                   row st)).
Proof.
  intros H. cbn [process_rows]. unfold mbind at 1.
  destruct (process_row invoke_model json_loads cols verbose row st)
    as [res st'].
  cbn in H. subst res. reflexivity.
Qed.

(** An exception in the loop body ends the loop. *)
Lemma process_rows_abort cols verbose row todo generated_data st e :
  fst (process_row invoke_model json_loads cols verbose row st) = Raise e ->
  fst (process_rows invoke_model json_loads cols verbose (row :: todo)
                    generated_data st)
  = Raise e.
Proof.
  intros H. cbn [process_rows]. unfold mbind at 1.
  destruct (process_row invoke_model json_loads cols verbose row st)
    as [res st'].
  cbn in H. subst res. reflexivity.
Qed.

(** With anything short of a delivered completion, the loop body builds
    the error row that carries the message of the failure. *)
Lemma process_row_failed cols verbose row st text id out w' :
  row_get cols row "support_ticket_text" = Ret text ->
  row_get cols row "support_tick_id" = Ret id ->
  invoke_model (request_for (prompt_of (cell_str text))) (world st)
  = (out, w') ->
  (forall e, out = Raise e -> is_Exception e = true) ->
  (forall body e, out = Ret body -> json_loads body = Raise e ->
                  is_Exception e = true) ->
  (forall completion, ~ delivers json_loads out completion) ->
  exists message,
    fst (send_prompt invoke_model json_loads (prompt_of (cell_str text))
                     verbose st)
    = Ret (error_dict message)
    /\ fst (process_row invoke_model json_loads cols verbose row st)
       = Ret (error_row id (JStr message))
    /\ (forall e, out = Raise e -> message = "Error occurred: " ++ exn_str e).
Proof.
  intros Htext Hid Hcall Hexn Hdec Hnot.
  destruct (send_prompt_failure verbose st Hcall Hexn Hdec Hnot)
    as (message & Hsend & Hmsg).
  exists message. split; [rewrite Hsend; reflexivity|].
  split; [|exact Hmsg].
  run_row. rewrite Htext, render_prompt_of, Hsend.
  rewrite (build_row_error_dict _ _ _ Hid). reflexivity.
Qed.

(** *** What a run does to the state *)

Ltac split_matches :=
  repeat match goal with
         | |- context [match ?x with _ => _ end] => destruct x eqn:?; cbn
         end.

Lemma effects_mret {A} (a : A) : @effects World A [] (mret a).
Proof. intros st. cbn. rewrite app_nil_r. split; reflexivity. Qed.

Lemma effects_lift {A} (r : result A) : @effects World A [] (lift r).
Proof. intros st. cbn. rewrite app_nil_r. split; reflexivity. Qed.

Lemma effects_print ev : @effects World unit [] (print ev).
Proof. intros st. cbn. rewrite app_nil_r. split; reflexivity. Qed.

Lemma effects_call rq : effects [rq] (call_invoke_model invoke_model rq).
Proof.
  intros st. unfold call_invoke_model.
  destruct (invoke_model rq (world st)). cbn. split; reflexivity.
Qed.

Lemma effects_bind {A B} l (m : M (state World) A)
      (k : A -> M (state World) B) :
  effects l m -> (forall a, effects [] (k a)) -> effects l (mbind m k).
Proof.
  intros Hm Hk st. unfold mbind. destruct (Hm st) as [Hc Hw].
  destruct (m st) as [[a|e] st1]; cbn in *.
  - destruct (Hk a st1) as [Hc' Hw']. rewrite Hc', Hw', Hc, app_nil_r.
    split; [reflexivity | exact Hw].
  - split; assumption.
Qed.

Lemma effects_try {A} l (body : M (state World) A) catches handler :
  effects l body -> (forall e, effects [] (handler e)) ->
  effects l (try_except body catches handler).
Proof.
  intros Hb Hh st. unfold try_except. destruct (Hb st) as [Hc Hw].
  destruct (body st) as [[a|e] st1]; cbn in *.
  - split; assumption.
  - destruct (catches e); [|split; assumption].
    destruct (Hh e st1) as [Hc' Hw']. rewrite Hc', Hw', Hc, app_nil_r.
    split; [reflexivity | exact Hw].
Qed.

Ltac effects_steps :=
  repeat first
    [ apply effects_mret | apply effects_lift | apply effects_print
    | apply effects_call | apply effects_try | apply effects_bind
    | match goal with
      | |- effects _ (if ?b then _ else _) => destruct b
      | |- forall _, _ => intro
      end ].

(** [send_prompt] calls the endpoint exactly once, with [request_for] its
    prompt, and writes no table. *)
Lemma send_prompt_effects prompt verbose :
  effects [request_for prompt]
          (send_prompt invoke_model json_loads prompt verbose).
Proof. unfold send_prompt, send_prompt_try. effects_steps. Qed.

Lemma process_row_effects cols verbose row st :
  let st' := snd (process_row invoke_model json_loads cols verbose row st) in
  (exists prompts, calls st' = (calls st ++ map request_for prompts)%list)
  /\ written st' = written st.
Proof.
  run_row.
  destruct (row_get cols row "support_ticket_text") as [text|e].
  2:{ cbn. split; [exists []; cbn; rewrite app_nil_r|]; reflexivity. }
  rewrite render_prompt_of.
  pose proof (send_prompt_effects (prompt_of (cell_str text)) verbose st)
    as [Hc Hw].
  destruct (send_prompt invoke_model json_loads (prompt_of (cell_str text))
                        verbose st) as [[v|e] st']; cbn in *.
  - split; [exists [prompt_of (cell_str text)]; exact Hc | exact Hw].
  - split; [exists [prompt_of (cell_str text)]; exact Hc | exact Hw].
Qed.

Lemma process_rows_effects cols verbose todo :
  forall generated_data st,
  let st' := snd (process_rows invoke_model json_loads cols verbose todo
                               generated_data st) in
  (exists prompts, calls st' = (calls st ++ map request_for prompts)%list)
  /\ written st' = written st.
Proof.
  induction todo as [|row todo IH]; intros generated_data st;
    cbn [process_rows]; cbv zeta.
  - cbn. split; [exists []; cbn; rewrite app_nil_r|]; reflexivity.
  - unfold mbind.
    pose proof (process_row_effects cols verbose row st) as Hrow.
    cbv zeta in Hrow. destruct Hrow as [[ps Hc] Hw].
    destruct (process_row invoke_model json_loads cols verbose row st)
      as [[r|e] st1]; cbn [fst snd] in *.
    + cbv beta. destruct (IH (generated_data ++ [r])%list st1) as [[ps' Hc'] Hw'].
      split.
      * exists (ps ++ ps')%list.
        rewrite Hc', Hc, map_app, app_assoc. reflexivity.
      * rewrite Hw'. exact Hw.
    + split; [exists ps; exact Hc | exact Hw].
Qed.

(** If the loop returns, [generated_data] has grown by one row per
    ticket, in the order of the tickets. *)
Lemma build_row_id cols row v r :
  build_row cols row v = Ret r ->
  row_get cols row "support_tick_id" = Ret (support_tick_id r).
Proof.
  unfold build_row, rbind. intros H.
  destruct (row_get cols row "support_tick_id") as [id|e].
  - f_equal. revert H. split_matches; intros H; inversion H; reflexivity.
  - revert H. split_matches; intros H; inversion H.
Qed.

Lemma process_row_id cols verbose row st r :
  fst (process_row invoke_model json_loads cols verbose row st) = Ret r ->
  row_get cols row "support_tick_id" = Ret (support_tick_id r).
Proof.
  run_row.
  destruct (row_get cols row "support_ticket_text") as [text|e];
    [|discriminate].
  rewrite render_prompt_of.
  destruct (send_prompt invoke_model json_loads (prompt_of (cell_str text))
                        verbose st) as [[v|e] st']; cbn; [|discriminate].
  apply build_row_id.
Qed.

Lemma process_rows_returns cols verbose todo :
  forall generated_data st result_rows,
  fst (process_rows invoke_model json_loads cols verbose todo
                    generated_data st) = Ret result_rows ->
  exists new_rows,
    result_rows = (generated_data ++ new_rows)%list
    /\ Forall2 (fun row r =>
                  row_get cols row "support_tick_id"
                  = Ret (support_tick_id r))
               todo new_rows.
Proof.
  induction todo as [|row todo IH]; intros generated_data st result_rows;
    cbn [process_rows].
  - intros H; inversion H. exists []. rewrite app_nil_r. split; constructor.
  - unfold mbind at 1.
    pose proof (@process_row_id cols verbose row st) as Hrow.
    destruct (process_row invoke_model json_loads cols verbose row st)
      as [[r|e] st1]; cbn [fst snd] in *; [|discriminate].
    intros H. destruct (IH _ _ _ H) as (new_rows & -> & Hall).
    exists (r :: new_rows). rewrite <- app_assoc. split; [reflexivity|].
    constructor; [apply Hrow; reflexivity | exact Hall].
Qed.

(** *** The whole batch *)

Lemma process_tickets_missing_columns df output_csv verbose st :
  has_column "support_tick_id" (columns df) = false
  \/ has_column "support_ticket_text" (columns df) = false ->
  process_tickets invoke_model json_loads df output_csv verbose st
  = (Ret tt, with_output st [PrintLine missing_columns_message]).
Proof.
  intros H. unfold process_tickets.
  destruct H as [H|H]; rewrite H; cbn [negb orb]; [reflexivity|].
  rewrite orb_true_r. reflexivity.
Qed.

(** Every request of a batch is [request_for] some prompt. *)
Lemma process_tickets_calls df output_csv verbose st :
  exists prompts,
    calls (snd (process_tickets invoke_model json_loads df output_csv
                                verbose st))
    = (calls st ++ map request_for prompts)%list.
Proof.
  unfold process_tickets.
  destruct (negb (has_column "support_tick_id" (columns df))
            || negb (has_column "support_ticket_text" (columns df))).
  - exists []. cbn. rewrite app_nil_r. reflexivity.
  - unfold mbind.
    pose proof (process_rows_effects (columns df) verbose (rows df) [] st)
      as Hrows.
    cbv zeta in Hrows. destruct Hrows as [[ps Hc] _].
    destruct (process_rows invoke_model json_loads (columns df) verbose
                           (rows df) [] st) as [[gd|e] st1];
      cbn [fst snd] in *; exists ps; cbn; exact Hc.
Qed.

End BedrockFacts.

(** ** The LangChain script *)

Lemma row_get_has_column name cols :
  has_column name cols = true ->
  forall row, exists c, row_get cols row name = Ret c.
Proof.
  induction cols as [|c cols IH]; cbn; [discriminate|].
  intros H row. destruct (String.eqb name c).
  - eexists; reflexivity.
  - apply IH. exact H.
Qed.

Section LangChainFacts.

Variable World : Type.
Variable chain_run : cell -> World -> result string * World.
Variable json_loads : string -> result json.

Lemma script_missing_columns concat_frames df st :
  has_column "support_tick_id" (columns df) = false
  \/ has_column "support_ticket_text" (columns df) = false ->
  script chain_run json_loads concat_frames df st
  = (Raise columns_error, st).
Proof.
  intros H. unfold script.
  destruct H as [H|H]; rewrite H; cbn [negb orb]; [reflexivity|].
  rewrite orb_true_r. reflexivity.
Qed.

Ltac run_script :=
  unfold script_row, try_except, mbind, lift, mret, call_chain,
    read_response, s_print; cbn beta iota.

(** A completion that is not valid JSON is replaced by the default error
    response. *)
Lemma script_row_undecodable cols row st text id response w' e :
  row_get cols row "support_ticket_text" = Ret text ->
  row_get cols row "support_tick_id" = Ret id ->
  chain_run text (s_world st) = (Ret response, w') ->
  json_loads response = Raise e ->
  is_JSONDecodeError e = true ->
  fst (script_row chain_run json_loads cols row st)
  = Ret default_error_response.
Proof.
  intros Htext Hid Hrun Hloads He. run_script.
  rewrite Htext, Hrun. cbn. rewrite Hloads, He. cbn. rewrite Hid.
  reflexivity.
Qed.

(** A completion that decodes is appended as decoded. *)
Lemma script_row_decoded cols row st text response w' v :
  row_get cols row "support_ticket_text" = Ret text ->
  chain_run text (s_world st) = (Ret response, w') ->
  json_loads response = Ret v ->
  fst (script_row chain_run json_loads cols row st) = Ret v.
Proof.
  intros Htext Hrun Hloads. run_script.
  rewrite Htext, Hrun. cbn. rewrite Hloads. reflexivity.
Qed.

(** When the chain and the decoder raise ordinary exceptions only, and
    the chain itself no [JSONDecodeError], the loop body always appends
    one entry: the script isolates the failure of a ticket. *)
Hypothesis chain_ordinary :
  forall text w e,
    fst (chain_run text w) = Raise e ->
    is_Exception e = true /\ is_JSONDecodeError e = false.
Hypothesis loads_ordinary :
  forall s e, json_loads s = Raise e -> is_Exception e = true.

Lemma script_row_returns cols row st :
  has_column "support_tick_id" cols = true ->
  has_column "support_ticket_text" cols = true ->
  exists v, fst (script_row chain_run json_loads cols row st) = Ret v.
Proof.
  intros Hid Htext.
  destruct (row_get_has_column _ _ Hid row) as [id Hid'].
  destruct (row_get_has_column _ _ Htext row) as [text Htext'].
  run_script. rewrite Htext'.
  pose proof (chain_ordinary text (s_world st)) as Hch.
  destruct (chain_run text (s_world st)) as [[response|e] w']; cbn in *.
  - pose proof (@loads_ordinary response) as Hl.
    destruct (json_loads response) as [v|e]; cbn.
    + eexists; reflexivity.
    + rewrite (Hl e eq_refl), orb_true_r.
      destruct (is_JSONDecodeError e); rewrite Hid'; cbn;
        eexists; reflexivity.
  - destruct (Hch e eq_refl) as [-> ->]. cbn. rewrite Hid'. cbn.
    eexists; reflexivity.
Qed.

Lemma script_loop_returns cols todo :
  has_column "support_tick_id" cols = true ->
  has_column "support_ticket_text" cols = true ->
  forall results st,
  exists results',
    fst (script_loop chain_run json_loads cols todo results st)
    = Ret results'
    /\ List.length results' = List.length results + List.length todo.
Proof.
  intros Hid Htext.
  induction todo as [|row todo IH]; intros results st; cbn [script_loop].
  - exists results. cbn. split; [reflexivity | lia].
  - unfold mbind.
    destruct (@script_row_returns cols row st Hid Htext) as [v Hv].
    destruct (script_row chain_run json_loads cols row st) as [r st1].
    cbn in Hv. subst r.
    destruct (IH (results ++ [v])%list st1) as (results' & H & Hlen).
    exists results'. split; [exact H|].
    rewrite Hlen, length_app. cbn. lia.
Qed.

End LangChainFacts.

(* ===================================================================== *)
(** * The claims                                                         *)
(* ===================================================================== *)

(** Proving, by evaluation, that the scripted endpoint delivers a given
    completion for a given ticket. *)
Ltac fake_answered :=
  eexists; eexists; split;
  [ eexists; split; [reflexivity | split; reflexivity]
  | do 4 eexists; split; [reflexivity|];
    split; [vm_compute; reflexivity|];
    split; reflexivity ].

(** ** From one ticket to the batch *)

Lemma row_get_ret_has_column name cols :
  forall row c, row_get cols row name = Ret c -> has_column name cols = true.
Proof.
  induction cols as [|c0 cols IH]; cbn; intros row c H; [discriminate|].
  destruct (String.eqb name c0); [reflexivity|].
  cbn. exact (IH (tl row) c H).
Qed.

Section TicketToBatch.

Variable World : Type.
Variable invoke_model : request -> World -> result string * World.
Variable json_loads : string -> result json.

(** A frame that holds one ticket: when the loop body yields a row, the
    run returns and the table written is that one row. *)
Lemma process_tickets_single cols verbose row st text id r output_csv :
  row_get cols row "support_ticket_text" = Ret text ->
  row_get cols row "support_tick_id" = Ret id ->
  fst (process_row invoke_model json_loads cols verbose row st) = Ret r ->
  fst (process_tickets invoke_model json_loads
                       {| columns := cols; rows := [row] |}
                       output_csv verbose st) = Ret tt
  /\ written (snd (process_tickets invoke_model json_loads
                                   {| columns := cols; rows := [row] |}
                                   output_csv verbose st))
     = (written st ++ [(output_csv, [r])])%list.
Proof.
  intros Htext Hid Hrow.
  unfold process_tickets. cbn [columns rows].
  rewrite (@row_get_ret_has_column "support_tick_id" cols row id Hid),
    (@row_get_ret_has_column "support_ticket_text" cols row text Htext).
  cbn [negb orb process_rows]. unfold mbind.
  pose proof (process_row_effects invoke_model json_loads cols verbose
                                  row st) as Heff.
  cbv zeta in Heff. destruct Heff as [_ Hw].
  destruct (process_row invoke_model json_loads cols verbose row st)
    as [res st1].
  cbn [fst snd] in *. subst res. cbn. rewrite Hw. split; reflexivity.
Qed.

Lemma send_prompt_endpoint_raised prompt verbose st e w' :
  invoke_model (request_for prompt) (world st) = (Raise e, w') ->
  is_Exception e = true ->
  send_prompt invoke_model json_loads prompt verbose st
  = (Ret (error_dict ("Error occurred: " ++ exn_str e)),
     after_call st (request_for prompt) w').
Proof.
  intros Hcall He.
  unfold send_prompt, send_prompt_try, try_except, mbind, lift,
    call_invoke_model.
  rewrite Hcall, He. reflexivity.
Qed.

Lemma send_prompt_bad_body prompt verbose st body e w' :
  invoke_model (request_for prompt) (world st) = (Ret body, w') ->
  json_loads body = Raise e ->
  is_Exception e = true ->
  send_prompt invoke_model json_loads prompt verbose st
  = (Ret (error_dict ("Error occurred: " ++ exn_str e)),
     after_call st (request_for prompt) w').
Proof.
  intros Hcall Hbody He.
  unfold send_prompt, send_prompt_try, try_except, mbind, lift,
    call_invoke_model.
  rewrite Hcall, Hbody, He. reflexivity.
Qed.

Lemma send_prompt_missing_envelope prompt verbose st body envelope w' :
  invoke_model (request_for prompt) (world st) = (Ret body, w') ->
  json_loads body = Ret (JObj envelope) ->
  dict_lookup "results" envelope = None
  \/ dict_lookup "results" envelope = Some (JArr [])
  \/ (exists first others,
        dict_lookup "results" envelope = Some (JArr (JObj first :: others))
        /\ dict_lookup "outputText" first = None) ->
  send_prompt invoke_model json_loads prompt verbose st
  = (Ret (error_dict "Invalid response format from Bedrock."),
     after_call st (request_for prompt) w').
Proof.
  intros Hcall Hbody Hmissing.
  unfold send_prompt, send_prompt_try, try_except, mbind, lift, mret,
    call_invoke_model.
  rewrite Hcall, Hbody. cbn [py_in py_getitem]. unfold dict_has.
  destruct Hmissing as [H|[H|(first & others & H & Htext)]]; rewrite H.
  - reflexivity.
  - reflexivity.
  - cbn [py_len List.length Nat.ltb Nat.leb py_getitem0 py_in py_getitem].
    unfold dict_has. rewrite Htext. reflexivity.
Qed.

(** A returned error dictionary becomes the error row, in the loop body,
    in the loop and in the batch. *)
Lemma error_dict_is_written cols verbose row st text id message :
  row_get cols row "support_ticket_text" = Ret text ->
  row_get cols row "support_tick_id" = Ret id ->
  fst (send_prompt invoke_model json_loads (prompt_of (cell_str text))
                   verbose st)
  = Ret (error_dict message) ->
  fst (process_row invoke_model json_loads cols verbose row st)
  = Ret (error_row id (JStr message)).
Proof.
  intros Htext Hid Hsend.
  unfold process_row, mbind, lift. rewrite Htext, render_prompt_of.
  destruct (send_prompt invoke_model json_loads (prompt_of (cell_str text))
                        verbose st) as [res st1].
  cbn [fst] in Hsend. subst res.
  rewrite (build_row_error_dict _ _ _ Hid). reflexivity.
Qed.

End TicketToBatch.

(** ** C10: the key [error] decides *)

(** C10.  Whenever the completion delivered for a ticket decodes to a
    JSON object that has a key [error], whatever else the object holds
    (its six classification fields included) and whatever value lies
    under the key, the loop body yields the error row: the identifier of
    the ticket, ["Error"] for category, tags, priority, suggested ETA and
    sentiment, and under [generated_reply] the value of the key; the loop
    appends that row to [generated_data] and goes on with the next
    ticket; and run on the frame that holds this one ticket,
    [process_tickets] returns and writes exactly that row. *)
Theorem error_key_gives_error_row
        (World : Type)
        (invoke_model : request -> World -> result string * World)
        (json_loads : string -> result json)
        (cols : list string) (verbose : bool) (row : list cell)
        (st : state World) (id : cell) (completion : string)
        (d : list (string * json)) (reply : json) :
  ticket_answered invoke_model json_loads cols row st id completion ->
  json_loads completion = Ret (JObj d) ->
  dict_lookup "error" d = Some reply ->
  let sentinel :=
    {| support_tick_id := id;
       category := JStr "Error";
       tags := JStr "Error";
       priority := JStr "Error";
       suggested_eta := JStr "Error";
       generated_reply := reply;
       sentiment := JStr "Error" |} in
  fst (process_row invoke_model json_loads cols verbose row st)
  = Ret sentinel
  /\ (forall todo generated_data,
        process_rows invoke_model json_loads cols verbose (row :: todo)
                     generated_data st
        = process_rows invoke_model json_loads cols verbose todo
                       (generated_data ++ [sentinel])
                       (snd (process_row invoke_model json_loads cols
                                         verbose row st)))
  /\ (forall output_csv,
        fst (process_tickets invoke_model json_loads
                             {| columns := cols; rows := [row] |}
                             output_csv verbose st) = Ret tt
        /\ written (snd (process_tickets invoke_model json_loads
                                         {| columns := cols; rows := [row] |}
                                         output_csv verbose st))
           = (written st ++ [(output_csv, [sentinel])])%list).
Proof.
  intros Hans Hd Herr. cbv zeta.
  assert (Hrow : fst (process_row invoke_model json_loads cols verbose row st)
                 = Ret (error_row id reply)).
  { rewrite (process_row_decoded verbose Hans Hd).
    destruct Hans as (out & w' & (text & _ & Hid & _) & _).
    apply build_row_error_key; assumption. }
  split; [exact Hrow|]. split.
  - intros todo generated_data. apply process_rows_step. exact Hrow.
  - intros output_csv.
    destruct Hans as (out & w' & (text & Htext & Hid & _) & _).
    exact (@process_tickets_single World invoke_model json_loads cols verbose
             row st text id (error_row id reply) output_csv Htext Hid Hrow).
Qed.

Lemma error_key_gives_error_row_witness :
  fst (process_row Fake.invoke_model RefJSON.ref_loads Examples.cols false
                   Examples.T1
                   (Fake.start [Fake.answers Examples.error_key_reply]))
  = Ret {| support_tick_id := CStr "T1";
           category := JStr "Error";
           tags := JStr "Error";
           priority := JStr "Error";
           suggested_eta := JStr "Error";
           generated_reply := JStr "none";
           sentiment := JStr "Error" |}.
Proof.
  refine (proj1 (@error_key_gives_error_row
                   Fake.World Fake.invoke_model RefJSON.ref_loads
                   Examples.cols false Examples.T1
                   (Fake.start [Fake.answers Examples.error_key_reply])
                   (CStr "T1") Examples.error_key_reply
                   Examples.error_key_dict (JStr "none") _ _ _)).
  - fake_answered.
  - vm_compute; reflexivity.
  - reflexivity.
Defined.

(** ** C3: defaults for absent fields *)

Lemma missing_fields_not_always_defaulted :
  exists d r,
    RefJSON.ref_loads Examples.partial_error_reply = Ret (JObj d)
    /\ dict_lookup "priority" d = None
    /\ fst (process_row Fake.invoke_model RefJSON.ref_loads Examples.cols
                        false Examples.T1
                        (Fake.start
                           [Fake.answers Examples.partial_error_reply]))
       = Ret r
    /\ priority r = JStr "Error"
    /\ priority r <> JStr "Unknown"
    /\ category r <> field_or d "category" (JStr "Unknown").
Proof.
  exists [("category", JStr "billing"); ("error", JStr "quota exceeded")].
  exists (error_row (CStr "T1") (JStr "quota exceeded")).
  split; [vm_compute; reflexivity|].
  split; [reflexivity|].
  split; [vm_compute; reflexivity|].
  split; [reflexivity|].
  split; cbn; discriminate.
Qed.

(** C3 (amended).  Whenever the completion delivered for a ticket decodes
    to a JSON object that has no key [error] and whose [tags], when
    present, can be joined (a list of strings), the loop body yields a
    row, not the error row, in which every field is the value found in
    the object or, when the key is absent, its default: ["Unknown"] for
    category, priority, suggested ETA and sentiment,
    ["No reply generated"] for the reply, and the empty sequence for the
    tags, which is stored joined, as the empty string. *)
Theorem missing_fields_get_defaults
        (World : Type)
        (invoke_model : request -> World -> result string * World)
        (json_loads : string -> result json)
        (cols : list string) (verbose : bool) (row : list cell)
        (st : state World) (id : cell) (completion : string)
        (d : list (string * json)) (joined : string) :
  ticket_answered invoke_model json_loads cols row st id completion ->
  json_loads completion = Ret (JObj d) ->
  dict_lookup "error" d = None ->
  py_join ", " (field_or d "tags" (JArr [])) = Ret joined ->
  fst (process_row invoke_model json_loads cols verbose row st)
  = Ret {| support_tick_id := id;
           category := field_or d "category" (JStr "Unknown");
           tags := JStr joined;
           priority := field_or d "priority" (JStr "Unknown");
           suggested_eta := field_or d "suggested_eta" (JStr "Unknown");
           generated_reply :=
             field_or d "generated_reply" (JStr "No reply generated");
           sentiment := field_or d "sentiment" (JStr "Unknown") |}
  /\ (dict_lookup "tags" d = None -> joined = EmptyString)
  /\ (forall k default, dict_lookup k d = None -> field_or d k default = default)
  /\ (forall k default v, dict_lookup k d = Some v -> field_or d k default = v).
Proof.
  intros Hans Hd Herr Hjoin.
  split.
  { rewrite (process_row_decoded verbose Hans Hd).
    destruct Hans as (out & w' & (text & _ & Hid & _) & _).
    apply build_row_fields; assumption. }
  split.
  { intros Hnone. unfold field_or in Hjoin. rewrite Hnone in Hjoin.
    cbn in Hjoin. inversion Hjoin. reflexivity. }
  split; intros k default; unfold field_or.
  - intros ->. reflexivity.
  - intros v ->. reflexivity.
Qed.

Lemma missing_fields_get_defaults_witness :
  fst (process_row Fake.invoke_model RefJSON.ref_loads Examples.cols false
                   Examples.T1
                   (Fake.start [Fake.answers Examples.no_tags_reply]))
  = Ret {| support_tick_id := CStr "T1";
           category := JStr "hardware issues";
           tags := JStr EmptyString;
           priority := JStr "high";
           suggested_eta := JStr "2 hours";
           generated_reply := JStr "We're sorry...";
           sentiment := JStr "negative" |}.
Proof.
  refine (proj1 (@missing_fields_get_defaults
                   Fake.World Fake.invoke_model RefJSON.ref_loads
                   Examples.cols false Examples.T1
                   (Fake.start [Fake.answers Examples.no_tags_reply])
                   (CStr "T1") Examples.no_tags_reply
                   Examples.no_tags_dict EmptyString _ _ _ _)).
  - fake_answered.
  - vm_compute; reflexivity.
  - reflexivity.
  - reflexivity.
Defined.

(** ** C4: completions that are not valid JSON *)

Lemma script_undecodable_row_is_lowercase :
  RefJSON.ref_loads Examples.not_json
  = Raise (Exn JSONDecodeError "Expecting value")
  /\ fst (script_row Fake.chain_run RefJSON.ref_loads Examples.cols
                     Examples.T1
                     (Fake.script_start [Ret Examples.not_json]))
     = Ret default_error_response
  /\ py_getitem default_error_response "category" = Ret (JStr "error")
  /\ JStr "error" <> JStr "Error"
  /\ py_getitem default_error_response "tags" = Ret (JArr [])
  /\ py_getitem default_error_response "priority" = Ret (JStr "low").
Proof.
  split; [vm_compute; reflexivity|].
  split; [vm_compute; reflexivity|].
  split; [reflexivity|].
  split; [discriminate|].
  split; reflexivity.
Qed.

(** C4 (amended).  When the completion for a ticket is not valid JSON
    ([json.loads] raises [JSONDecodeError]), [process_tickets] of
    Support_ticket.py yields the row whose category, tags, priority,
    suggested ETA and sentiment are ["Error"] and whose reply is the
    fixed description ["Error decoding the model's JSON response."];
    the results loop of support_ticket.py yields its own default
    response instead: category ["error"], no tags, priority ["low"],
    ETA ["N/A"], reply ["Error processing ticket."], sentiment
    ["neutral"]. *)
Theorem undecodable_completion_rows
        (World : Type)
        (invoke_model : request -> World -> result string * World)
        (chain_run : cell -> World -> result string * World)
        (json_loads : string -> result json)
        (cols : list string) (verbose : bool) (row : list cell)
        (st : state World) (sst : script_state World)
        (id text : cell) (completion : string) (e : exn) (w' : World) :
  json_loads completion = Raise e ->
  is_JSONDecodeError e = true ->
  ticket_answered invoke_model json_loads cols row st id completion ->
  row_get cols row "support_ticket_text" = Ret text ->
  chain_run text (s_world sst) = (Ret completion, w') ->
  fst (process_row invoke_model json_loads cols verbose row st)
  = Ret {| support_tick_id := id;
           category := JStr "Error";
           tags := JStr "Error";
           priority := JStr "Error";
           suggested_eta := JStr "Error";
           generated_reply :=
             JStr "Error decoding the model's JSON response.";
           sentiment := JStr "Error" |}
  /\ fst (script_row chain_run json_loads cols row sst)
     = Ret (JObj [ ("category", JStr "error");
                   ("tags", JArr []);
                   ("priority", JStr "low");
                   ("suggested_eta", JStr "N/A");
                   ("generated_reply", JStr "Error processing ticket.");
                   ("sentiment", JStr "neutral") ]).
Proof.
  intros Hloads He Hans Htext Hrun. split.
  - exact (process_row_undecodable verbose Hans Hloads He).
  - destruct Hans as (out & w1 & (text' & _ & Hid & _) & _).
    eapply script_row_undecodable; eassumption.
Qed.

Lemma undecodable_completion_rows_witness :
  fst (process_row Fake.invoke_model RefJSON.ref_loads Examples.cols false
                   Examples.T1
                   (Fake.start [Fake.answers Examples.not_json]))
  = Ret (error_row (CStr "T1") (JStr decode_error_message))
  /\ fst (script_row Fake.chain_run RefJSON.ref_loads Examples.cols
                     Examples.T1
                     (Fake.script_start [Ret Examples.not_json]))
     = Ret default_error_response.
Proof.
  refine (@undecodable_completion_rows
            Fake.World Fake.invoke_model Fake.chain_run RefJSON.ref_loads
            Examples.cols false Examples.T1
            (Fake.start [Fake.answers Examples.not_json])
            (Fake.script_start [Ret Examples.not_json])
            (CStr "T1") (CStr "My laptop won't boot") Examples.not_json
            (Exn JSONDecodeError "Expecting value") [] _ _ _ _ _).
  - vm_compute; reflexivity.
  - reflexivity.
  - fake_answered.
  - reflexivity.
  - reflexivity.
Defined.

(** ** C9: telling the two failure kinds apart *)

Lemma build_row_object_inv cols row d r :
  dict_lookup "error" d = None ->
  build_row cols row (JObj d) = Ret r ->
  exists joined,
    py_join ", " (field_or d "tags" (JArr [])) = Ret joined
    /\ six_fields r
       = (field_or d "category" (JStr "Unknown"),
          JStr joined,
          field_or d "priority" (JStr "Unknown"),
          field_or d "suggested_eta" (JStr "Unknown"),
          field_or d "generated_reply" (JStr "No reply generated"),
          field_or d "sentiment" (JStr "Unknown")).
Proof.
  intros Herr. unfold build_row. cbn. unfold dict_has. rewrite Herr. cbn.
  destruct (row_get cols row "support_tick_id") as [id|e]; cbn;
    [|discriminate].
  fold (field_or d "tags" (JArr [])).
  destruct (py_join ", " (field_or d "tags" (JArr []))) as [joined|e]; cbn;
    [|discriminate].
  intros H. inversion H. exists joined. split; reflexivity.
Qed.

Lemma mimic_object_equals_parse_failure :
  exists e d r1 r2,
    RefJSON.ref_loads Examples.not_json = Raise e
    /\ is_JSONDecodeError e = true
    /\ RefJSON.ref_loads Examples.mimic_reply = Ret (JObj d)
    /\ Forall (fun k => dict_lookup k d = None) expected_fields
    /\ fst (process_row Fake.invoke_model RefJSON.ref_loads Examples.cols
                        false Examples.T1
                        (Fake.start [Fake.answers Examples.not_json]))
       = Ret r1
    /\ fst (process_row Fake.invoke_model RefJSON.ref_loads Examples.cols
                        false Examples.T2
                        (Fake.start [Fake.answers Examples.mimic_reply]))
       = Ret r2
    /\ six_fields r1 = six_fields r2.
Proof.
  exists (Exn JSONDecodeError "Expecting value").
  exists [("error", JStr decode_error_message)].
  exists (error_row (CStr "T1") (JStr decode_error_message)).
  exists (error_row (CStr "T2") (JStr decode_error_message)).
  split; [vm_compute; reflexivity|].
  split; [reflexivity|].
  split; [vm_compute; reflexivity|].
  split; [repeat constructor|].
  split; [vm_compute; reflexivity|].
  split; [vm_compute; reflexivity|].
  reflexivity.
Qed.

(** C9 (amended).  Take a ticket whose completion is not valid JSON and a
    ticket whose completion decodes to a JSON object that has no key
    [error] and lacks at least one of the six expected fields, and
    suppose the loop body yields a row for the second.  Then it yields
    the parse-failure row for the first, and the two rows differ in one
    of their six classification fields (the absent one: its default is
    never the value the parse-failure row has there). *)
Theorem defaulted_row_differs_from_parse_failure
        (World : Type)
        (invoke_model : request -> World -> result string * World)
        (json_loads : string -> result json)
        (cols : list string) (verbose : bool)
        (row1 row2 : list cell) (st1 st2 : state World) (id1 id2 : cell)
        (malformed partial : string) (e : exn)
        (d : list (string * json)) (r2 : report_row) :
  ticket_answered invoke_model json_loads cols row1 st1 id1 malformed ->
  json_loads malformed = Raise e ->
  is_JSONDecodeError e = true ->
  ticket_answered invoke_model json_loads cols row2 st2 id2 partial ->
  json_loads partial = Ret (JObj d) ->
  dict_lookup "error" d = None ->
  (exists k, In k expected_fields /\ dict_lookup k d = None) ->
  fst (process_row invoke_model json_loads cols verbose row2 st2) = Ret r2 ->
  exists r1,
    fst (process_row invoke_model json_loads cols verbose row1 st1) = Ret r1
    /\ r1 = error_row id1 (JStr decode_error_message)
    /\ six_fields r1 <> six_fields r2.
Proof.
  intros Hans1 Hbad He Hans2 Hd Herr (k & Hin & Hk) Hr2.
  exists (error_row id1 (JStr decode_error_message)).
  split; [exact (process_row_undecodable verbose Hans1 Hbad He)|].
  split; [reflexivity|].
  rewrite (process_row_decoded verbose Hans2 Hd) in Hr2.
  destruct (@build_row_object_inv cols row2 d r2 Herr Hr2)
    as (joined & Hjoin & Hsix).
  rewrite Hsix. unfold six_fields, error_row, field_or in *. cbn.
  intros Heq.
  cbn in Hin.
  destruct Hin as [<-|[<-|[<-|[<-|[<-|[<-|[]]]]]]];
    rewrite Hk in *; inversion Heq; subst;
    cbn in Hjoin; discriminate.
Qed.

Lemma defaulted_row_differs_from_parse_failure_witness :
  exists r1,
    fst (process_row Fake.invoke_model RefJSON.ref_loads Examples.cols false
                     Examples.T1
                     (Fake.start [Fake.answers Examples.not_json]))
    = Ret r1
    /\ r1 = error_row (CStr "T1") (JStr decode_error_message)
    /\ six_fields r1
       <> six_fields
            {| support_tick_id := CStr "T2";
               category := JStr "hardware issues";
               tags := JStr EmptyString;
               priority := JStr "high";
               suggested_eta := JStr "2 hours";
               generated_reply := JStr "We're sorry...";
               sentiment := JStr "negative" |}.
Proof.
  refine (@defaulted_row_differs_from_parse_failure
            Fake.World Fake.invoke_model RefJSON.ref_loads
            Examples.cols false Examples.T1 Examples.T2
            (Fake.start [Fake.answers Examples.not_json])
            (Fake.start [Fake.answers Examples.no_tags_reply])
            (CStr "T1") (CStr "T2") Examples.not_json Examples.no_tags_reply
            (Exn JSONDecodeError "Expecting value")
            Examples.no_tags_dict _ _ _ _ _ _ _ _ _).
  - fake_answered.
  - vm_compute; reflexivity.
  - reflexivity.
  - fake_answered.
  - vm_compute; reflexivity.
  - reflexivity.
  - exists "tags". split; [cbn; tauto | reflexivity].
  - vm_compute; reflexivity.
Defined.

(** ** C5: transport failures *)

(** C5.  Take a ticket and the outcome of calling the endpoint with its
    prompt, every exception involved being an ordinary one (a subclass of
    [Exception]: network, authentication, request or endpoint error, or
    an error of the decoder).  Then [send_prompt] raises nothing: it
    returns a value.  If the endpoint did anything but deliver a
    completion, that value is a dictionary [{"error": message}], and the
    failure is written as a row: the loop body yields the row with the
    identifier of the ticket, ["Error"] for category, tags, priority,
    suggested ETA and sentiment, and the message as [generated_reply];
    the loop appends it and goes on; on the frame that holds this one
    ticket [process_tickets] returns and writes exactly that row.  The
    message is ["Error occurred: "] followed by [str(e)] when the
    endpoint raised [e] (so the text of the transport error occurs in
    the reply) and when the response body is not JSON, and
    ["Invalid response format from Bedrock."] when the body is an object
    without [results], with no result, or whose first result has no
    [outputText]. *)
Theorem transport_failure_gives_error_row
        (World : Type)
        (invoke_model : request -> World -> result string * World)
        (json_loads : string -> result json)
        (cols : list string) (verbose : bool) (row : list cell)
        (st : state World) (text id : cell)
        (out : result string) (w' : World) :
  row_get cols row "support_ticket_text" = Ret text ->
  row_get cols row "support_tick_id" = Ret id ->
  invoke_model (request_for (prompt_of (cell_str text))) (world st)
  = (out, w') ->
  (forall e, out = Raise e -> is_Exception e = true) ->
  (forall body e, out = Ret body -> json_loads body = Raise e ->
                  is_Exception e = true) ->
  (forall completion e, delivers json_loads out completion ->
                        json_loads completion = Raise e ->
                        is_Exception e = true) ->
  let sentinel (message : string) :=
    {| support_tick_id := id;
       category := JStr "Error";
       tags := JStr "Error";
       priority := JStr "Error";
       suggested_eta := JStr "Error";
       generated_reply := JStr message;
       sentiment := JStr "Error" |} in
  let written_as (message : string) :=
    fst (send_prompt invoke_model json_loads (prompt_of (cell_str text))
                     verbose st)
    = Ret (JObj [("error", JStr message)])
    /\ fst (process_row invoke_model json_loads cols verbose row st)
       = Ret (sentinel message)
    /\ (forall todo generated_data,
          process_rows invoke_model json_loads cols verbose (row :: todo)
                       generated_data st
          = process_rows invoke_model json_loads cols verbose todo
                         (generated_data ++ [sentinel message])
                         (snd (process_row invoke_model json_loads cols
                                           verbose row st)))
    /\ (forall output_csv,
          fst (process_tickets invoke_model json_loads
                               {| columns := cols; rows := [row] |}
                               output_csv verbose st) = Ret tt
          /\ written (snd (process_tickets invoke_model json_loads
                             {| columns := cols; rows := [row] |}
                             output_csv verbose st))
             = (written st ++ [(output_csv, [sentinel message])])%list) in
  (exists v,
     fst (send_prompt invoke_model json_loads (prompt_of (cell_str text))
                      verbose st) = Ret v)
  /\ ((forall completion, ~ delivers json_loads out completion) ->
      exists message, written_as message)
  /\ (forall e, out = Raise e ->
        written_as ("Error occurred: " ++ exn_str e)
        /\ str_contains (exn_str e) ("Error occurred: " ++ exn_str e) = true)
  /\ (forall body e, out = Ret body -> json_loads body = Raise e ->
        written_as ("Error occurred: " ++ exn_str e))
  /\ (forall body envelope,
        out = Ret body -> json_loads body = Ret (JObj envelope) ->
        dict_lookup "results" envelope = None
        \/ dict_lookup "results" envelope = Some (JArr [])
        \/ (exists first others,
              dict_lookup "results" envelope
              = Some (JArr (JObj first :: others))
              /\ dict_lookup "outputText" first = None) ->
        written_as "Invalid response format from Bedrock.").
Proof.
  intros Htext Hid Hcall Hexn Hdec Hcompl. cbv zeta.
  assert (Hwritten : forall message,
    fst (send_prompt invoke_model json_loads (prompt_of (cell_str text))
                     verbose st) = Ret (error_dict message) ->
    fst (send_prompt invoke_model json_loads (prompt_of (cell_str text))
                     verbose st)
    = Ret (JObj [("error", JStr message)])
    /\ fst (process_row invoke_model json_loads cols verbose row st)
       = Ret (error_row id (JStr message))
    /\ (forall todo generated_data,
          process_rows invoke_model json_loads cols verbose (row :: todo)
                       generated_data st
          = process_rows invoke_model json_loads cols verbose todo
                         (generated_data ++ [error_row id (JStr message)])
                         (snd (process_row invoke_model json_loads cols
                                           verbose row st)))
    /\ (forall output_csv,
          fst (process_tickets invoke_model json_loads
                               {| columns := cols; rows := [row] |}
                               output_csv verbose st) = Ret tt
          /\ written (snd (process_tickets invoke_model json_loads
                             {| columns := cols; rows := [row] |}
                             output_csv verbose st))
             = (written st
                ++ [(output_csv, [error_row id (JStr message)])])%list)).
  { intros message Hsend.
    pose proof (@error_dict_is_written World invoke_model json_loads cols
                  verbose row st text id message Htext Hid Hsend) as Hrow.
    split; [exact Hsend|]. split; [exact Hrow|]. split.
    - intros todo generated_data. apply process_rows_step. exact Hrow.
    - intros output_csv.
      exact (@process_tickets_single World invoke_model json_loads cols
               verbose row st text id _ output_csv Htext Hid Hrow). }
  split.
  { exact (@send_prompt_returns World invoke_model json_loads _ verbose st
             out w' Hcall Hexn Hdec Hcompl). }
  split.
  { intros Hnot.
    destruct (@send_prompt_failure World invoke_model json_loads
                (prompt_of (cell_str text)) verbose st out w'
                Hcall Hexn Hdec Hnot) as (message & Hsend & _).
    exists message. apply Hwritten. rewrite Hsend. reflexivity. }
  split.
  { intros e He. subst out. split; [|apply str_contains_suffix].
    apply Hwritten.
    rewrite (@send_prompt_endpoint_raised World invoke_model json_loads
               (prompt_of (cell_str text)) verbose st e w' Hcall
               (Hexn e eq_refl)).
    reflexivity. }
  split.
  { intros body e Hout Hbody. subst out. apply Hwritten.
    rewrite (@send_prompt_bad_body World invoke_model json_loads
               (prompt_of (cell_str text)) verbose st body e w' Hcall Hbody
               (Hdec body e eq_refl Hbody)).
    reflexivity. }
  intros body envelope Hout Hbody Hmissing. subst out. apply Hwritten.
  rewrite (@send_prompt_missing_envelope World invoke_model json_loads
             (prompt_of (cell_str text)) verbose st body envelope w'
             Hcall Hbody Hmissing).
  reflexivity.
Qed.

Lemma transport_failure_gives_error_row_witness :
  (exists v,
     fst (send_prompt Fake.invoke_model RefJSON.ref_loads
            (prompt_of "My laptop won't boot") false
            (Fake.start [Fake.fails "timeout"])) = Ret v)
  /\ fst (send_prompt Fake.invoke_model RefJSON.ref_loads
            (prompt_of "My laptop won't boot") false
            (Fake.start [Fake.fails "timeout"]))
     = Ret (JObj [("error", JStr "Error occurred: timeout")])
  /\ written (snd (process_tickets Fake.invoke_model RefJSON.ref_loads
                     {| columns := Examples.cols; rows := [Examples.T1] |}
                     "out.csv" false (Fake.start [Fake.fails "timeout"])))
     = [("out.csv",
         [{| support_tick_id := CStr "T1";
             category := JStr "Error";
             tags := JStr "Error";
             priority := JStr "Error";
             suggested_eta := JStr "Error";
             generated_reply := JStr "Error occurred: timeout";
             sentiment := JStr "Error" |}])]
  /\ str_contains "timeout" "Error occurred: timeout" = true.
Proof.
  pose proof (@transport_failure_gives_error_row
                Fake.World Fake.invoke_model RefJSON.ref_loads
                Examples.cols false Examples.T1
                (Fake.start [Fake.fails "timeout"])
                (CStr "My laptop won't boot") (CStr "T1")
                (Fake.fails "timeout") []) as H.
  cbv zeta in H.
  destruct H as (Hreturns & _ & Hraised & _).
  - reflexivity.
  - reflexivity.
  - reflexivity.
  - intros e H. inversion H. reflexivity.
  - intros body e H. discriminate H.
  - intros completion e (body & env & first & others & H & _).
    discriminate H.
  - destruct (Hraised (Exn (OtherException "EndpointConnectionError")
                           "timeout") eq_refl)
      as ((Hsend & _ & _ & Hbatch) & Hin).
    split; [exact Hreturns|]. split; [exact Hsend|].
    split; [exact (proj2 (Hbatch "out.csv"))|exact Hin].
Defined.

(** ** C7: the generation configuration *)

Lemma langchain_config_differs :
  ~ fixed_generation_config llm_model_kwargs
  /\ py_getitem llm_model_kwargs "temperature" = Ret (JFloat "0.1")
  /\ py_in "topP" llm_model_kwargs = Ret false.
Proof.
  split; [|split; reflexivity].
  cbn. intros (H & _). discriminate H.
Qed.

(** C7 (amended).  Every request that [process_tickets] of
    Support_ticket.py sends, whatever the frame, the endpoint and the
    decoder do, is [request_for] some prompt and carries the same
    generation configuration: temperature 0.0, top-p 1.0 and at most 1000
    tokens.  The [llm] of support_ticket.py is configured otherwise, once
    for all its tickets: temperature 0.1, at most 1000 tokens, and no
    top-p. *)
Theorem generation_config_is_fixed
        (World : Type)
        (invoke_model : request -> World -> result string * World)
        (json_loads : string -> result json)
        (df : DataFrame) (output_csv : string) (verbose : bool)
        (st : state World) :
  (exists prompts,
     calls (snd (process_tickets invoke_model json_loads df output_csv
                                 verbose st))
     = (calls st ++ map request_for prompts)%list)
  /\ (forall prompt,
        generation_config_of (request_for prompt) = Some textGenerationConfig)
  /\ fixed_generation_config textGenerationConfig
  /\ llm_model_kwargs
     = JObj [("temperature", JFloat "0.1"); ("maxTokenCount", JInt 1000)].
Proof.
  split; [apply process_tickets_calls|].
  split; [reflexivity|].
  split; [cbn; repeat split; reflexivity | reflexivity].
Qed.

(** ** C8: missing columns *)

(** C8.  When the frame lacks the column [support_tick_id] or the column
    [support_ticket_text], [process_tickets] prints the error line and
    returns at once: the world behind the endpoint and the list of
    requests are unchanged (no inference call), and no table is written;
    the script support_ticket.py raises its [ValueError] and leaves its
    state unchanged (no call of the chain, nothing written). *)
Theorem missing_columns_stop_the_run
        (World : Type)
        (invoke_model : request -> World -> result string * World)
        (chain_run : cell -> World -> result string * World)
        (json_loads : string -> result json)
        (concat_frames :
           DataFrame -> list json -> result (list (list cell * json)))
        (df : DataFrame) (output_csv : string) (verbose : bool)
        (st : state World) (sst : script_state World) :
  has_column "support_tick_id" (columns df) = false
  \/ has_column "support_ticket_text" (columns df) = false ->
  process_tickets invoke_model json_loads df output_csv verbose st
  = (Ret tt,
     {| world := world st;
        calls := calls st;
        stdout := stdout st ++ [PrintLine missing_columns_message];
        written := written st |})
  /\ script chain_run json_loads concat_frames df sst
     = (Raise columns_error, sst).
Proof.
  intros H. split.
  - apply process_tickets_missing_columns. exact H.
  - apply script_missing_columns. exact H.
Qed.

Lemma missing_columns_stop_the_run_witness :
  process_tickets Fake.invoke_model RefJSON.ref_loads
    {| columns := ["support_tick_id"; "text"]; rows := [Examples.T1] |}
    "out.csv" false (Fake.start [Fake.answers Examples.full_reply])
  = (Ret tt,
     {| world := [Fake.answers Examples.full_reply];
        calls := [];
        stdout := [PrintLine missing_columns_message];
        written := [] |})
  /\ script Fake.chain_run RefJSON.ref_loads Fake.concat_frames
       {| columns := ["support_tick_id"; "text"]; rows := [Examples.T1] |}
       (Fake.script_start [Ret Examples.full_reply])
     = (Raise columns_error, Fake.script_start [Ret Examples.full_reply]).
Proof.
  refine (@missing_columns_stop_the_run
            Fake.World Fake.invoke_model Fake.chain_run RefJSON.ref_loads
            Fake.concat_frames
            {| columns := ["support_tick_id"; "text"];
               rows := [Examples.T1] |}
            "out.csv" false (Fake.start [Fake.answers Examples.full_reply])
            (Fake.script_start [Ret Examples.full_reply]) _).
  right. reflexivity.
Defined.

(** ** C1 and C2: a completion that is valid JSON but no object *)

(** C1 (the code at a failing input).  Two tickets; the completion for
    the first is the expected object wrapped in a list.  [send_prompt]
    returns the list; ['error' in ai_response] is false and
    [ai_response.get] raises [AttributeError], which nothing catches:
    [process_tickets] ends with that exception after one call, the
    second ticket is never sent and no table is written.  On the same
    completions the results loop of support_ticket.py, whose [try]
    covers the whole ticket, appends one entry per ticket. *)
Theorem wrapped_completion_aborts_the_batch :
  RefJSON.ref_loads Examples.wrapped_reply
  = Ret (JArr [JObj [ ("category", JStr "hardware issues");
                      ("tags", JArr [JStr "boot failure"]);
                      ("priority", JStr "high");
                      ("suggested_eta", JStr "2 hours");
                      ("generated_reply", JStr "We're sorry...");
                      ("sentiment", JStr "negative") ]])
  /\ (let run :=
        Fake.run (Fake.tickets [Examples.T1; Examples.T2])
                 [Fake.answers Examples.wrapped_reply;
                  Fake.answers Examples.full_reply] in
      fst run = Raise (Exn AttributeError
                           "'list' object has no attribute 'get'")
      /\ List.length (calls (snd run)) = 1
      /\ world (snd run) = [Fake.answers Examples.full_reply]
      /\ written (snd run) = [])
  /\ (exists results,
        fst (script_loop Fake.chain_run RefJSON.ref_loads Examples.cols
                         [Examples.T1; Examples.T2] []
                         (Fake.script_start [Ret Examples.wrapped_reply;
                                             Ret Examples.full_reply]))
        = Ret results
        /\ List.length results = 2).
Proof.
  split; [vm_compute; reflexivity|].
  split; [vm_compute; repeat split; reflexivity|].
  eexists. split; [vm_compute; reflexivity | reflexivity].
Qed.

(** C2 (the code at a failing input).  The completion [42] is valid
    JSON.  [send_prompt] returns the integer, and ['error' in 42] raises
    [TypeError] in the loop body, outside any [try]: no row is built for
    the ticket, and the exception ends [process_tickets]. *)
Theorem number_completion_raises :
  RefJSON.ref_loads "42" = Ret (JInt 42)
  /\ fst (send_prompt Fake.invoke_model RefJSON.ref_loads
            (prompt_of "My laptop won't boot") false
            (Fake.start [Fake.answers "42"]))
     = Ret (JInt 42)
  /\ build_row Examples.cols Examples.T1 (JInt 42)
     = Raise (Exn TypeError "argument of type 'int' is not iterable")
  /\ fst (process_row Fake.invoke_model RefJSON.ref_loads Examples.cols
                      false Examples.T1 (Fake.start [Fake.answers "42"]))
     = Raise (Exn TypeError "argument of type 'int' is not iterable")
  /\ fst (Fake.run (Fake.tickets [Examples.T1]) [Fake.answers "42"])
     = Raise (Exn TypeError "argument of type 'int' is not iterable")
  /\ written (snd (Fake.run (Fake.tickets [Examples.T1])
                            [Fake.answers "42"])) = [].
Proof.
  repeat split; vm_compute; reflexivity.
Qed.

(* ===================================================================== *)
(** * Further properties                                                 *)
(* ===================================================================== *)

Unset Implicit Arguments.

(** ** The prompt *)

Lemma append_cancel_head (a x y : string) : a ++ x = a ++ y -> x = y.
Proof.
  induction a as [|c a IH]; cbn; intros H; [exact H|].
  inversion H. apply IH. assumption.
Qed.

Lemma length_append_string (a b : string) :
  String.length (a ++ b) = String.length a + String.length b.
Proof. induction a as [|c a IH]; cbn; [reflexivity | rewrite IH; reflexivity]. Qed.

Lemma append_cancel_tail (s x : string) : forall y, x ++ s = y ++ s -> x = y.
Proof.
  induction x as [|c x IH]; intros [|d y] H; cbn in H.
  - reflexivity.
  - exfalso. apply (f_equal String.length) in H. cbn in H.
    rewrite length_append_string in H. lia.
  - exfalso. apply (f_equal String.length) in H. cbn in H.
    rewrite length_append_string in H. lia.
  - inversion H. f_equal. apply IH. assumption.
Qed.

(** X1.  The prompt determines the ticket text: two texts that render to
    the same prompt are the same text. *)
Theorem render_injective (text1 text2 : string) :
  render text1 = render text2 -> text1 = text2.
Proof.
  rewrite !render_prompt_of. intros H.
  assert (H' : prompt_of text1 = prompt_of text2) by congruence.
  unfold prompt_of in H'.
  apply append_cancel_head in H'. apply append_cancel_tail in H'. exact H'.
Qed.

Lemma render_injective_witness :
  "My laptop won't boot" = "My laptop won't boot".
Proof.
  exact (render_injective "My laptop won't boot" "My laptop won't boot"
           eq_refl).
Defined.

(** ** The console does not steer a run *)

Section ConsoleFacts.

Variable World : Type.
Variable invoke_model : request -> World -> result string * World.
Variable json_loads : string -> result json.

Lemma same_backend_refl (st : state World) : same_backend st st.
Proof. repeat split. Qed.

Lemma console_only_mret {A} (a : A) : @console_only World A (mret a) (mret a).
Proof. intros st1 st2 H. cbn. split; [reflexivity | exact H]. Qed.

Lemma console_only_lift {A} (r : result A) :
  @console_only World A (lift r) (lift r).
Proof. intros st1 st2 H. cbn. split; [reflexivity | exact H]. Qed.

Lemma console_only_print_left ev :
  @console_only World unit (print ev) (mret tt).
Proof. intros st1 st2 H. cbn. split; [reflexivity | exact H]. Qed.

Lemma console_only_print_right ev :
  @console_only World unit (mret tt) (print ev).
Proof. intros st1 st2 H. cbn. split; [reflexivity | exact H]. Qed.

Lemma console_only_print ev1 ev2 :
  @console_only World unit (print ev1) (print ev2).
Proof. intros st1 st2 H. cbn. split; [reflexivity | exact H]. Qed.

Lemma console_only_to_csv path table :
  @console_only World unit (to_csv path table) (to_csv path table).
Proof.
  intros st1 st2 (Hw & Hc & Hwr). cbn. split; [reflexivity|].
  repeat split; cbn; congruence.
Qed.

Lemma console_only_call rq :
  console_only (call_invoke_model invoke_model rq)
               (call_invoke_model invoke_model rq).
Proof.
  intros st1 st2 (Hw & Hc & Hwr). unfold call_invoke_model.
  rewrite Hw. destruct (invoke_model rq (world st2)) as [out w']. cbn.
  split; [reflexivity|]. repeat split; cbn; congruence.
Qed.

Lemma console_only_bind {A B} (m1 m2 : M (state World) A)
      (k1 k2 : A -> M (state World) B) :
  console_only m1 m2 -> (forall a, console_only (k1 a) (k2 a)) ->
  console_only (mbind m1 k1) (mbind m2 k2).
Proof.
  intros Hm Hk st1 st2 H. unfold mbind.
  destruct (Hm st1 st2 H) as [Hr Hs].
  destruct (m1 st1) as [r1 s1], (m2 st2) as [r2 s2]. cbn in Hr, Hs.
  subst r2. destruct r1 as [a|e].
  - apply Hk. exact Hs.
  - cbn. split; [reflexivity | exact Hs].
Qed.

Lemma console_only_try {A} (b1 b2 : M (state World) A) catches
      (h1 h2 : exn -> M (state World) A) :
  console_only b1 b2 -> (forall e, console_only (h1 e) (h2 e)) ->
  console_only (try_except b1 catches h1) (try_except b2 catches h2).
Proof.
  intros Hb Hh st1 st2 H. unfold try_except.
  destruct (Hb st1 st2 H) as [Hr Hs].
  destruct (b1 st1) as [r1 s1], (b2 st2) as [r2 s2]. cbn in Hr, Hs.
  subst r2. destruct r1 as [a|e].
  - cbn. split; [reflexivity | exact Hs].
  - destruct (catches e).
    + apply Hh. exact Hs.
    + cbn. split; [reflexivity | exact Hs].
Qed.

Ltac console_steps :=
  repeat first
    [ apply console_only_mret | apply console_only_lift
    | apply console_only_print | apply console_only_print_left
    | apply console_only_print_right | apply console_only_call
    | apply console_only_to_csv
    | apply console_only_try | apply console_only_bind
    | match goal with
      | |- console_only (if ?b then _ else _) (if ?b then _ else _) =>
          destruct b
      | |- console_only (if ?b then _ else _) (if ?c then _ else _) =>
          destruct b; destruct c
      | |- forall _, _ => intro
      end ].

Lemma console_only_send_prompt prompt verbose1 verbose2 :
  console_only (send_prompt invoke_model json_loads prompt verbose1)
               (send_prompt invoke_model json_loads prompt verbose2).
Proof. unfold send_prompt, send_prompt_try. console_steps. Qed.

Lemma console_only_process_row cols verbose1 verbose2 row :
  console_only (process_row invoke_model json_loads cols verbose1 row)
               (process_row invoke_model json_loads cols verbose2 row).
Proof.
  unfold process_row.
  apply console_only_bind; [apply console_only_lift | intros text].
  apply console_only_bind; [apply console_only_lift | intros prompt].
  apply console_only_bind; [apply console_only_send_prompt | intros v].
  apply console_only_lift.
Qed.

Lemma console_only_process_rows cols verbose1 verbose2 todo :
  forall generated_data,
    console_only
      (process_rows invoke_model json_loads cols verbose1 todo generated_data)
      (process_rows invoke_model json_loads cols verbose2 todo generated_data).
Proof.
  induction todo as [|row todo IH]; intros generated_data; cbn [process_rows].
  - apply console_only_mret.
  - apply console_only_bind; [apply console_only_process_row | intros r].
    apply IH.
Qed.

Lemma console_only_process_tickets df output_csv verbose1 verbose2 :
  console_only
    (process_tickets invoke_model json_loads df output_csv verbose1)
    (process_tickets invoke_model json_loads df output_csv verbose2).
Proof.
  unfold process_tickets.
  destruct (negb (has_column "support_tick_id" (columns df))
            || negb (has_column "support_ticket_text" (columns df))).
  - apply console_only_print.
  - apply console_only_bind; [apply console_only_process_rows | intros gd].
    apply console_only_bind; [apply console_only_to_csv | intros _].
    apply console_only_print.
Qed.

(** The [send_prompt] of Support_ticket_st.py is the [send_prompt] of
    Support_ticket.py run without [verbose]. *)
Lemma st_send_prompt_is_send_prompt prompt st :
  st_send_prompt invoke_model json_loads prompt st
  = send_prompt invoke_model json_loads prompt false st.
Proof.
  unfold st_send_prompt, send_prompt, st_send_prompt_try, send_prompt_try,
    try_except, mbind, lift, mret, call_invoke_model.
  reflexivity.
Qed.

End ConsoleFacts.

(** X2.  [verbose] changes the console and nothing else: with and
    without it, from the same state, [process_tickets] ends the same way
    (returns, or raises the same exception), leaves the same world behind
    the endpoint, sends the same requests and writes the same tables. *)
Theorem verbose_changes_only_the_console
        (World : Type)
        (invoke_model : request -> World -> result string * World)
        (json_loads : string -> result json)
        (df : DataFrame) (output_csv : string) (st : state World) :
  let quiet := process_tickets invoke_model json_loads df output_csv false st in
  let loud := process_tickets invoke_model json_loads df output_csv true st in
  fst loud = fst quiet
  /\ world (snd loud) = world (snd quiet)
  /\ calls (snd loud) = calls (snd quiet)
  /\ written (snd loud) = written (snd quiet).
Proof.
  cbv zeta.
  destruct (console_only_process_tickets World invoke_model json_loads
              df output_csv true false st st (same_backend_refl World st))
    as (Hr & Hw & Hc & Hwr).
  repeat split; assumption.
Qed.

(** X3.  The two copies of [send_prompt] agree: the one of
    Support_ticket_st.py returns what the one of Support_ticket.py
    returns without [verbose], and leaves the same state. *)
Theorem send_prompt_copies_agree
        (World : Type)
        (invoke_model : request -> World -> result string * World)
        (json_loads : string -> result json)
        (prompt : string) (st : state World) :
  st_send_prompt invoke_model json_loads prompt st
  = send_prompt invoke_model json_loads prompt false st.
Proof. apply st_send_prompt_is_send_prompt. Qed.

(** ** The batch *)

Section BatchFacts.

Variable World : Type.
Variable invoke_model : request -> World -> result string * World.
Variable json_loads : string -> result json.

Lemma row_prompt_text cols row text :
  row_get cols row "support_ticket_text" = Ret text ->
  row_prompt cols row = prompt_of (cell_str text).
Proof. intros H. unfold row_prompt. rewrite H. reflexivity. Qed.

(** The loop body sends exactly the prompt of its ticket, however it
    ends. *)
Lemma process_row_one_call cols verbose row st :
  has_column "support_ticket_text" cols = true ->
  calls (snd (process_row invoke_model json_loads cols verbose row st))
  = (calls st ++ [request_for (row_prompt cols row)])%list.
Proof.
  intros Hcol.
  destruct (row_get_has_column "support_ticket_text" cols Hcol row)
    as [text Htext].
  rewrite (row_prompt_text cols row text Htext).
  unfold process_row, mbind, lift. rewrite Htext, render_prompt_of.
  pose proof (send_prompt_effects invoke_model json_loads
                (prompt_of (cell_str text)) verbose st) as [Hc _].
  destruct (send_prompt invoke_model json_loads (prompt_of (cell_str text))
                        verbose st) as [[v|e] st']; cbn in *; exact Hc.
Qed.

Lemma process_rows_calls_in_order cols verbose todo :
  has_column "support_ticket_text" cols = true ->
  forall generated_data st,
  exists k,
    k <= List.length todo
    /\ calls (snd (process_rows invoke_model json_loads cols verbose todo
                                generated_data st))
       = (calls st
          ++ map (fun row => request_for (row_prompt cols row))
                 (firstn k todo))%list
    /\ (forall rows_out,
          fst (process_rows invoke_model json_loads cols verbose todo
                            generated_data st) = Ret rows_out ->
          k = List.length todo).
Proof.
  intros Hcol.
  induction todo as [|row todo IH]; intros generated_data st;
    cbn [process_rows].
  - exists 0. cbn. rewrite app_nil_r. repeat split; auto.
  - unfold mbind.
    pose proof (process_row_one_call cols verbose row st Hcol) as Hone.
    destruct (process_row invoke_model json_loads cols verbose row st)
      as [[r|e] st1]; cbn [fst snd] in *.
    + destruct (IH (generated_data ++ [r])%list st1) as (k & Hk & Hc & Hall).
      exists (S k). cbn [firstn map List.length]. split; [lia|]. split.
      * rewrite Hc, Hone, <- app_assoc. reflexivity.
      * intros rows_out H. rewrite (Hall rows_out H). reflexivity.
    + exists 1. cbn [firstn map List.length]. split; [lia|]. split.
      * rewrite Hone. destruct todo; reflexivity.
      * intros rows_out H. discriminate H.
Qed.

(** A value from which a row can be built gives a row. *)
Lemma build_row_buildable cols row id v :
  row_get cols row "support_tick_id" = Ret id ->
  row_buildable v ->
  exists r, build_row cols row v = Ret r.
Proof.
  intros Hid (d & -> & [Herr|(joined & Hjoin)]).
  - unfold dict_has in Herr.
    destruct (dict_lookup "error" d) as [reply|] eqn:Hl; [|discriminate].
    exists (error_row id reply). apply build_row_error_key; assumption.
  - destruct (dict_lookup "error" d) as [reply|] eqn:Hl.
    + exists (error_row id reply). apply build_row_error_key; assumption.
    + eexists. apply build_row_fields; eassumption.
Qed.

End BatchFacts.

Lemma columns_test_false cols :
  negb (has_column "support_tick_id" cols)
  || negb (has_column "support_ticket_text" cols) = false ->
  has_column "support_tick_id" cols = true
  /\ has_column "support_ticket_text" cols = true.
Proof.
  intros H. apply orb_false_elim in H as [H1 H2].
  apply negb_false_iff in H1, H2. split; assumption.
Qed.

(** X4.  [process_tickets] sends one request per ticket it reaches, in
    the order of the frame, each carrying the prompt rendered from the
    text of its ticket, and never sends a request twice: the requests of
    a run are those of the first [k] tickets, and of all tickets when
    the frame has both columns and the run returns. *)
Theorem one_request_per_ticket_in_order
        (World : Type)
        (invoke_model : request -> World -> result string * World)
        (json_loads : string -> result json)
        (df : DataFrame) (output_csv : string) (verbose : bool)
        (st : state World) :
  exists k,
    k <= List.length (rows df)
    /\ calls (snd (process_tickets invoke_model json_loads df output_csv
                                   verbose st))
       = (calls st
          ++ map (fun row => request_for (row_prompt (columns df) row))
                 (firstn k (rows df)))%list
    /\ (has_column "support_tick_id" (columns df) = true ->
        has_column "support_ticket_text" (columns df) = true ->
        fst (process_tickets invoke_model json_loads df output_csv
                             verbose st) = Ret tt ->
        k = List.length (rows df)).
Proof.
  unfold process_tickets.
  destruct (negb (has_column "support_tick_id" (columns df))
            || negb (has_column "support_ticket_text" (columns df)))
    eqn:Htest.
  - exists 0. cbn. rewrite app_nil_r. split; [lia|]. split; [reflexivity|].
    intros H1 H2 _. rewrite H1, H2 in Htest. discriminate Htest.
  - destruct (columns_test_false _ Htest) as [_ Htext].
    destruct (process_rows_calls_in_order World invoke_model json_loads
                (columns df) verbose (rows df) Htext [] st)
      as (k & Hk & Hc & Hall).
    exists k. split; [exact Hk|]. unfold mbind.
    destruct (process_rows invoke_model json_loads (columns df) verbose
                           (rows df) [] st) as [[rows_out|e] st1];
      cbn [fst snd] in *.
    + split; [exact Hc|]. intros _ _ _. apply (Hall rows_out). reflexivity.
    + split; [exact Hc|]. intros _ _ H. discriminate H.
Qed.

(** X5.  [process_tickets] writes all or nothing.  Either the frame
    lacks a column and nothing is written; or an exception ends the run
    and nothing is written; or the run returns and has written exactly
    one table, under [output_csv], with one row per ticket of the frame,
    in order, each row carrying the identifier of its ticket. *)
Theorem output_is_all_or_nothing
        (World : Type)
        (invoke_model : request -> World -> result string * World)
        (json_loads : string -> result json)
        (df : DataFrame) (output_csv : string) (verbose : bool)
        (st : state World) :
  let run := process_tickets invoke_model json_loads df output_csv
                             verbose st in
  (negb (has_column "support_tick_id" (columns df))
   || negb (has_column "support_ticket_text" (columns df)) = true
   /\ fst run = Ret tt /\ written (snd run) = written st)
  \/ (exists e, fst run = Raise e /\ written (snd run) = written st)
  \/ (exists rows_out,
        fst run = Ret tt
        /\ written (snd run) = (written st ++ [(output_csv, rows_out)])%list
        /\ List.length rows_out = List.length (rows df)
        /\ Forall2 (fun row r =>
                      row_get (columns df) row "support_tick_id"
                      = Ret (support_tick_id r))
                   (rows df) rows_out).
Proof.
  cbv zeta. unfold process_tickets.
  destruct (negb (has_column "support_tick_id" (columns df))
            || negb (has_column "support_ticket_text" (columns df))).
  - left. repeat split; reflexivity.
  - right. unfold mbind.
    pose proof (process_rows_effects invoke_model json_loads (columns df)
                  verbose (rows df) [] st) as Heff.
    cbv zeta in Heff. destruct Heff as [_ Hw].
    pose proof (process_rows_returns invoke_model json_loads (columns df)
                  verbose (rows df) [] st) as Hret.
    destruct (process_rows invoke_model json_loads (columns df) verbose
                           (rows df) [] st) as [[rows_out|e] st1];
      cbn [fst snd] in *.
    + right. exists rows_out.
      destruct (Hret rows_out eq_refl) as (new_rows & Hnew & Hall).
      cbn in Hnew. subst new_rows.
      split; [reflexivity|]. split; [cbn; rewrite Hw; reflexivity|].
      split; [symmetry; eapply Forall2_length; exact Hall | exact Hall].
    + left. exists e. split; [reflexivity | exact Hw].
Qed.

Section Reliable.

Variable World : Type.
Variable invoke_model : request -> World -> result string * World.
Variable json_loads : string -> result json.

Hypothesis endpoint_ordinary :
  forall rq w e, fst (invoke_model rq w) = Raise e -> is_Exception e = true.
Hypothesis body_ordinary :
  forall rq w body e,
    fst (invoke_model rq w) = Ret body -> json_loads body = Raise e ->
    is_Exception e = true.
Hypothesis completion_ordinary :
  forall rq w completion e,
    delivers json_loads (fst (invoke_model rq w)) completion ->
    json_loads completion = Raise e -> is_Exception e = true.
Hypothesis completion_buildable :
  forall rq w completion v,
    delivers json_loads (fst (invoke_model rq w)) completion ->
    json_loads completion = Ret v -> row_buildable v.

Lemma error_dict_buildable message : row_buildable (error_dict message).
Proof. exists [("error", JStr message)]. split; [reflexivity|]. left. reflexivity. Qed.

Lemma send_prompt_buildable prompt verbose st :
  exists v,
    fst (send_prompt invoke_model json_loads prompt verbose st) = Ret v
    /\ row_buildable v.
Proof.
  destruct (invoke_model (request_for prompt) (world st)) as [out w'] eqn:Hcall.
  assert (Hout : fst (invoke_model (request_for prompt) (world st)) = out)
    by (rewrite Hcall; reflexivity).
  assert (Hexn : forall e, out = Raise e -> is_Exception e = true).
  { intros e He. apply (endpoint_ordinary (request_for prompt) (world st)).
    rewrite Hout. exact He. }
  assert (Hdec : forall body e, out = Ret body -> json_loads body = Raise e ->
                                is_Exception e = true).
  { intros body e Hb. apply (body_ordinary (request_for prompt) (world st)).
    rewrite Hout. exact Hb. }
  destruct (@send_prompt_cases World invoke_model json_loads prompt verbose
              st out w' Hcall Hexn Hdec)
    as [[completion Hdel]|(message & H & _)].
  - assert (Hdel' : delivers json_loads
                      (fst (invoke_model (request_for prompt) (world st)))
                      completion) by (rewrite Hout; exact Hdel).
    destruct (json_loads completion) as [v|e] eqn:Hv.
    + exists v. split.
      * rewrite (@send_prompt_decoded World invoke_model json_loads prompt
                   verbose st out w' completion v Hcall Hdel Hv).
        reflexivity.
      * exact (completion_buildable _ _ _ _ Hdel' Hv).
    + destruct (is_JSONDecodeError e) eqn:He.
      * eexists. split; [|apply error_dict_buildable].
        rewrite (@send_prompt_undecodable World invoke_model json_loads
                   prompt verbose st out w' completion e Hcall Hdel Hv He).
        reflexivity.
      * eexists. split; [|apply error_dict_buildable].
        rewrite (@send_prompt_decoder_raised World invoke_model json_loads
                   prompt verbose st out w' completion e Hcall Hdel Hv He
                   (completion_ordinary _ _ _ _ Hdel' Hv)).
        reflexivity.
  - exists (error_dict message). split; [rewrite H; reflexivity|].
    apply error_dict_buildable.
Qed.

Lemma process_row_always_returns cols verbose row st :
  has_column "support_tick_id" cols = true ->
  has_column "support_ticket_text" cols = true ->
  exists r, fst (process_row invoke_model json_loads cols verbose row st)
            = Ret r.
Proof.
  intros Hid Htext.
  destruct (row_get_has_column "support_tick_id" cols Hid row) as [id Hid'].
  destruct (row_get_has_column "support_ticket_text" cols Htext row)
    as [text Htext'].
  destruct (send_prompt_buildable (prompt_of (cell_str text)) verbose st)
    as (v & Hv & Hbuild).
  destruct (build_row_buildable cols row id v Hid' Hbuild) as [r Hr].
  exists r. unfold process_row, mbind, lift.
  rewrite Htext', render_prompt_of.
  destruct (send_prompt invoke_model json_loads (prompt_of (cell_str text))
                        verbose st) as [res st'].
  cbn in Hv. subst res. rewrite Hr. reflexivity.
Qed.

Lemma process_rows_always_return cols verbose todo :
  has_column "support_tick_id" cols = true ->
  has_column "support_ticket_text" cols = true ->
  forall generated_data st,
  exists rows_out,
    fst (process_rows invoke_model json_loads cols verbose todo
                      generated_data st) = Ret rows_out.
Proof.
  intros Hid Htext.
  induction todo as [|row todo IH]; intros generated_data st;
    cbn [process_rows].
  - eexists. reflexivity.
  - unfold mbind.
    destruct (process_row_always_returns cols verbose row st Hid Htext)
      as [r Hr].
    destruct (process_row invoke_model json_loads cols verbose row st)
      as [res st1].
    cbn in Hr. subst res. apply IH.
Qed.

End Reliable.

(** X6.  The row-count invariant, where it holds.  Suppose the endpoint
    and the decoder raise ordinary exceptions only, and every completion
    that the endpoint delivers and that decodes is a JSON object with a
    key [error] or with tags that can be joined.  Then, on a frame with
    both columns, [process_tickets] returns and writes one table with
    exactly one row per ticket, in the order of the frame, whatever the
    number of transport and decoding failures. *)
Theorem batch_completes_on_objects
        (World : Type)
        (invoke_model : request -> World -> result string * World)
        (json_loads : string -> result json)
        (df : DataFrame) (output_csv : string) (verbose : bool)
        (st : state World) :
  (forall rq w e, fst (invoke_model rq w) = Raise e -> is_Exception e = true) ->
  (forall rq w body e,
     fst (invoke_model rq w) = Ret body -> json_loads body = Raise e ->
     is_Exception e = true) ->
  (forall rq w completion e,
     delivers json_loads (fst (invoke_model rq w)) completion ->
     json_loads completion = Raise e -> is_Exception e = true) ->
  (forall rq w completion v,
     delivers json_loads (fst (invoke_model rq w)) completion ->
     json_loads completion = Ret v -> row_buildable v) ->
  has_column "support_tick_id" (columns df) = true ->
  has_column "support_ticket_text" (columns df) = true ->
  exists rows_out,
    fst (process_tickets invoke_model json_loads df output_csv verbose st)
    = Ret tt
    /\ written (snd (process_tickets invoke_model json_loads df output_csv
                                     verbose st))
       = (written st ++ [(output_csv, rows_out)])%list
    /\ List.length rows_out = List.length (rows df)
    /\ Forall2 (fun row r =>
                  row_get (columns df) row "support_tick_id"
                  = Ret (support_tick_id r))
               (rows df) rows_out.
Proof.
  intros H1 H2 H3 H4 Hid Htext.
  destruct (process_rows_always_return World invoke_model json_loads
              H1 H2 H3 H4 (columns df) verbose (rows df) Hid Htext [] st)
    as [rows_out Hrows].
  pose proof (process_rows_effects invoke_model json_loads (columns df)
                verbose (rows df) [] st) as Heff.
  cbv zeta in Heff. destruct Heff as [_ Hw].
  destruct (process_rows_returns invoke_model json_loads (columns df)
              verbose (rows df) [] st Hrows) as (new_rows & Hnew & Hall).
  cbn in Hnew. subst new_rows.
  exists rows_out. unfold process_tickets. rewrite Hid, Htext. cbn [negb orb].
  unfold mbind.
  destruct (process_rows invoke_model json_loads (columns df) verbose
                         (rows df) [] st) as [res st1].
  cbn [fst snd] in *. subst res. cbn.
  split; [reflexivity|]. split; [rewrite Hw; reflexivity|].
  split; [symmetry; eapply Forall2_length; exact Hall | exact Hall].
Qed.

(** Reading the completion off a concrete response, by evaluation. *)
Ltac steady_completion H :=
  let body := fresh "body" in
  let env := fresh "env" in
  let first := fresh "first" in
  let others := fresh "others" in
  let Hb := fresh "Hb" in
  let Henv := fresh "Henv" in
  let Hres := fresh "Hres" in
  let Htxt := fresh "Htxt" in
  destruct H as (body & env & first & others & Hb & Henv & Hres & Htxt);
  cbn in Hb; injection Hb as Hb; subst body;
  vm_compute in Henv; injection Henv as Henv; subst env;
  vm_compute in Hres; injection Hres as Hres1 Hres2; subst first others;
  vm_compute in Htxt; injection Htxt as Htxt.

Lemma batch_completes_on_objects_witness :
  exists rows_out,
    fst (process_tickets
           (Steady.invoke_model (Fake.answers Examples.no_tags_reply))
           RefJSON.ref_loads (Fake.tickets [Examples.T1; Examples.T2])
           "out.csv" false Steady.start)
    = Ret tt
    /\ written (snd (process_tickets
           (Steady.invoke_model (Fake.answers Examples.no_tags_reply))
           RefJSON.ref_loads (Fake.tickets [Examples.T1; Examples.T2])
           "out.csv" false Steady.start))
       = [("out.csv", rows_out)]
    /\ List.length rows_out = 2
    /\ Forall2 (fun row r =>
                  row_get Examples.cols row "support_tick_id"
                  = Ret (support_tick_id r))
               [Examples.T1; Examples.T2] rows_out.
Proof.
  refine (batch_completes_on_objects
            Steady.World
            (Steady.invoke_model (Fake.answers Examples.no_tags_reply))
            RefJSON.ref_loads (Fake.tickets [Examples.T1; Examples.T2])
            "out.csv" false Steady.start _ _ _ _ _ _).
  - intros rq w e H. discriminate H.
  - intros rq w body e H Hl. cbn in H. injection H as <-.
    vm_compute in Hl. discriminate Hl.
  - intros rq w completion e H Hl. steady_completion H. subst completion.
    vm_compute in Hl. discriminate Hl.
  - intros rq w completion v H Hl. steady_completion H. subst completion.
    vm_compute in Hl. injection Hl as <-.
    eexists. split; [reflexivity|]. right. eexists. reflexivity.
  - reflexivity.
  - reflexivity.
Defined.

(** ** Completions of the wrong shape *)

Lemma build_row_not_object cols row id v :
  row_get cols row "support_tick_id" = Ret id ->
  (forall d, v <> JObj d) ->
  exists e,
    build_row cols row v = Raise e
    /\ (exn_class_of e = TypeError \/ exn_class_of e = AttributeError).
Proof.
  intros Hid Hv. unfold build_row.
  destruct v as [| | | |s|l|d]; cbn;
    try (eexists; split; [reflexivity | left; reflexivity]).
  - destruct (str_contains "error" s); rewrite Hid; cbn;
      eexists; split; try reflexivity; [left | right]; reflexivity.
  - destruct (existsb (str_eq_json "error") l); rewrite Hid; cbn;
      eexists; split; try reflexivity; [left | right]; reflexivity.
  - exfalso. exact (Hv d eq_refl).
Qed.

(** X7.  A delivered completion that decodes to anything but a JSON
    object (a number, a string, a list, [true], [false], [null]) ends the
    batch: the loop body raises [TypeError] or [AttributeError], and the
    loop over this and the remaining tickets raises the same exception,
    so none of the remaining tickets is processed. *)
Theorem non_object_completion_ends_the_loop
        (World : Type)
        (invoke_model : request -> World -> result string * World)
        (json_loads : string -> result json)
        (cols : list string) (verbose : bool) (row : list cell)
        (st : state World) (id : cell) (completion : string) (v : json) :
  ticket_answered invoke_model json_loads cols row st id completion ->
  json_loads completion = Ret v ->
  (forall d, v <> JObj d) ->
  exists e,
    (exn_class_of e = TypeError \/ exn_class_of e = AttributeError)
    /\ fst (process_row invoke_model json_loads cols verbose row st)
       = Raise e
    /\ forall todo generated_data,
         fst (process_rows invoke_model json_loads cols verbose
                           (row :: todo) generated_data st)
         = Raise e.
Proof.
  intros Hans Hv Hnot.
  pose proof (@process_row_decoded World invoke_model json_loads cols verbose
                row st id completion v Hans Hv) as Hrow.
  destruct Hans as (out & w' & (text & _ & Hid & _) & _).
  destruct (build_row_not_object cols row id v Hid Hnot) as (e & He & Hcls).
  exists e. split; [exact Hcls|]. rewrite He in Hrow. split; [exact Hrow|].
  intros todo generated_data.
  exact (@process_rows_abort World invoke_model json_loads cols verbose row
           todo generated_data st e Hrow).
Qed.

Lemma non_object_completion_ends_the_loop_witness :
  exists e,
    (exn_class_of e = TypeError \/ exn_class_of e = AttributeError)
    /\ fst (process_row Fake.invoke_model RefJSON.ref_loads Examples.cols
                        false Examples.T1
                        (Fake.start [Fake.answers Examples.wrapped_reply]))
       = Raise e
    /\ forall todo generated_data,
         fst (process_rows Fake.invoke_model RefJSON.ref_loads Examples.cols
                           false (Examples.T1 :: todo) generated_data
                           (Fake.start [Fake.answers Examples.wrapped_reply]))
         = Raise e.
Proof.
  refine (non_object_completion_ends_the_loop
            Fake.World Fake.invoke_model RefJSON.ref_loads Examples.cols
            false Examples.T1
            (Fake.start [Fake.answers Examples.wrapped_reply])
            (CStr "T1") Examples.wrapped_reply
            (JArr [JObj [ ("category", JStr "hardware issues");
                          ("tags", JArr [JStr "boot failure"]);
                          ("priority", JStr "high");
                          ("suggested_eta", JStr "2 hours");
                          ("generated_reply", JStr "We're sorry...");
                          ("sentiment", JStr "negative") ]]) _ _ _).
  - fake_answered.
  - vm_compute; reflexivity.
  - intros d H. discriminate H.
Defined.

(** X8.  Tags given as one string are joined character by character: for
    a delivered object without a key [error] whose [tags] is the string
    [s], the row's tags are the characters of [s] separated by a comma
    and a space. *)
Theorem string_tags_are_split_into_characters
        (World : Type)
        (invoke_model : request -> World -> result string * World)
        (json_loads : string -> result json)
        (cols : list string) (verbose : bool) (row : list cell)
        (st : state World) (id : cell) (completion : string)
        (d : list (string * json)) (s : string) :
  ticket_answered invoke_model json_loads cols row st id completion ->
  json_loads completion = Ret (JObj d) ->
  dict_lookup "error" d = None ->
  dict_lookup "tags" d = Some (JStr s) ->
  exists r,
    fst (process_row invoke_model json_loads cols verbose row st) = Ret r
    /\ tags r = JStr (str_join ", " (str_chars s)).
Proof.
  intros Hans Hd Herr Htags.
  rewrite (@process_row_decoded World invoke_model json_loads cols verbose
             row st id completion (JObj d) Hans Hd).
  destruct Hans as (out & w' & (text & _ & Hid & _) & _).
  eexists. split.
  - apply (@build_row_fields cols row id d (str_join ", " (str_chars s)));
      [exact Hid | exact Herr|].
    unfold field_or. rewrite Htags. reflexivity.
  - reflexivity.
Qed.

Lemma string_tags_are_split_into_characters_witness :
  exists r,
    fst (process_row Fake.invoke_model RefJSON.ref_loads Examples.cols false
           Examples.T1
           (Fake.start [Fake.answers MoreExamples.string_tags_reply]))
    = Ret r
    /\ tags r = JStr "v, p, n".
Proof.
  refine (string_tags_are_split_into_characters
            Fake.World Fake.invoke_model RefJSON.ref_loads Examples.cols
            false Examples.T1
            (Fake.start [Fake.answers MoreExamples.string_tags_reply])
            (CStr "T1") MoreExamples.string_tags_reply
            [("category", JStr "network"); ("tags", JStr "vpn")] "vpn"
            _ _ _ _).
  - fake_answered.
  - vm_compute; reflexivity.
  - reflexivity.
  - reflexivity.
Defined.

(** X9.  Tags that are no sequence end the batch: for a delivered object
    without a key [error] whose [tags] is [null], a number or a boolean,
    the loop body raises [TypeError], and so does the loop. *)
Theorem scalar_tags_end_the_loop
        (World : Type)
        (invoke_model : request -> World -> result string * World)
        (json_loads : string -> result json)
        (cols : list string) (verbose : bool) (row : list cell)
        (st : state World) (id : cell) (completion : string)
        (d : list (string * json)) (t : json) :
  ticket_answered invoke_model json_loads cols row st id completion ->
  json_loads completion = Ret (JObj d) ->
  dict_lookup "error" d = None ->
  dict_lookup "tags" d = Some t ->
  match t with JStr _ | JArr _ | JObj _ => False | _ => True end ->
  fst (process_row invoke_model json_loads cols verbose row st)
  = Raise (Exn TypeError "can only join an iterable")
  /\ forall todo generated_data,
       fst (process_rows invoke_model json_loads cols verbose
                         (row :: todo) generated_data st)
       = Raise (Exn TypeError "can only join an iterable").
Proof.
  intros Hans Hd Herr Htags Ht.
  assert (Hrow : fst (process_row invoke_model json_loads cols verbose row st)
                 = Raise (Exn TypeError "can only join an iterable")).
  { rewrite (@process_row_decoded World invoke_model json_loads cols verbose
               row st id completion (JObj d) Hans Hd).
    destruct Hans as (out & w' & (text & _ & Hid & _) & _).
    unfold build_row. cbn. unfold dict_has. rewrite Herr. cbn.
    rewrite Hid. cbn. rewrite Htags.
    destruct t; try contradiction; reflexivity. }
  split; [exact Hrow|]. intros todo generated_data.
  exact (@process_rows_abort World invoke_model json_loads cols verbose row
           todo generated_data st _ Hrow).
Qed.

Lemma scalar_tags_end_the_loop_witness :
  fst (process_row Fake.invoke_model RefJSON.ref_loads Examples.cols false
         Examples.T1
         (Fake.start [Fake.answers MoreExamples.null_tags_reply]))
  = Raise (Exn TypeError "can only join an iterable").
Proof.
  refine (proj1 (scalar_tags_end_the_loop
            Fake.World Fake.invoke_model RefJSON.ref_loads Examples.cols
            false Examples.T1
            (Fake.start [Fake.answers MoreExamples.null_tags_reply])
            (CStr "T1") MoreExamples.null_tags_reply
            [("category", JStr "network"); ("tags", JNull)] JNull
            _ _ _ _ _)).
  - fake_answered.
  - vm_compute; reflexivity.
  - reflexivity.
  - reflexivity.
  - exact I.
Defined.

(** ** The LangChain script *)

Section ScriptFacts.

Variable World : Type.
Variable chain_run : cell -> World -> result string * World.
Variable json_loads : string -> result json.

Hypothesis chain_raises_ordinary :
  forall text w e,
    fst (chain_run text w) = Raise e ->
    is_Exception e = true /\ is_JSONDecodeError e = false.
Hypothesis completion_raises_ordinary :
  forall text w response e,
    fst (chain_run text w) = Ret response ->
    json_loads response = Raise e -> is_Exception e = true.

(** The loop body appends the entry of its own ticket, leaves the world
    as the chain left it and writes no table. *)
Lemma script_row_appends cols row st :
  has_column "support_tick_id" cols = true ->
  has_column "support_ticket_text" cols = true ->
  fst (script_row chain_run json_loads cols row st)
  = Ret (script_entry json_loads
                      (fst (chain_run (row_text cols row) (s_world st))))
  /\ s_world (snd (script_row chain_run json_loads cols row st))
     = snd (chain_run (row_text cols row) (s_world st))
  /\ s_written (snd (script_row chain_run json_loads cols row st))
     = s_written st.
Proof.
  intros Hid Htext.
  destruct (row_get_has_column "support_tick_id" cols Hid row) as [id Hid'].
  destruct (row_get_has_column "support_ticket_text" cols Htext row)
    as [text Htext'].
  unfold row_text, script_entry, script_row, try_except, mbind, lift, mret,
    call_chain, read_response, s_print.
  rewrite Htext'.
  pose proof (chain_raises_ordinary text (s_world st)) as Hch.
  pose proof (completion_raises_ordinary text (s_world st)) as Hl.
  destruct (chain_run text (s_world st)) as [[response|e] w']; cbn in *.
  - specialize (Hl response).
    destruct (json_loads response) as [v|e] eqn:Hv; cbn.
    + repeat split.
    + rewrite (Hl e eq_refl eq_refl), orb_true_r.
      destruct (is_JSONDecodeError e); rewrite Hid'; cbn; repeat split.
  - destruct (Hch e eq_refl) as [-> ->]. cbn. rewrite Hid'. cbn.
    repeat split.
Qed.

Lemma script_loop_appends cols todo :
  has_column "support_tick_id" cols = true ->
  has_column "support_ticket_text" cols = true ->
  forall results st,
    fst (script_loop chain_run json_loads cols todo results st)
    = Ret (results
           ++ script_entries chain_run json_loads cols todo (s_world st))%list
    /\ s_written (snd (script_loop chain_run json_loads cols todo results st))
       = s_written st.
Proof.
  intros Hid Htext.
  induction todo as [|row todo IH]; intros results st;
    cbn [script_loop script_entries].
  - cbn. rewrite app_nil_r. split; reflexivity.
  - unfold mbind.
    destruct (script_row_appends cols row st Hid Htext) as (Hv & Hworld & Hw).
    destruct (script_row chain_run json_loads cols row st) as [r st1].
    cbn [fst snd] in *. subst r.
    destruct (chain_run (row_text cols row) (s_world st)) as [out w'].
    cbn [fst snd] in *.
    destruct (IH (results ++ [script_entry json_loads out])%list st1)
      as (Hloop & Hw').
    rewrite Hloop, Hworld, <- app_assoc.
    split; [reflexivity|]. rewrite Hw'. exact Hw.
Qed.

Lemma script_entries_length cols todo :
  forall w,
    List.length (script_entries chain_run json_loads cols todo w)
    = List.length todo.
Proof.
  induction todo as [|row todo IH]; intros w; cbn [script_entries].
  - reflexivity.
  - destruct (chain_run (row_text cols row) w) as [out w'].
    cbn. rewrite IH. reflexivity.
Qed.

End ScriptFacts.

(** X10.  The results loop of the script isolates the failure of a
    ticket; the lines after the loop do not.  Suppose the chain raises
    ordinary exceptions only, none of them a [JSONDecodeError], and the
    decoder raises ordinary exceptions only on the chain's completions.
    Then, on a frame with both columns, the loop returns, and [results]
    holds one entry per ticket, in the order of the rows, each the entry
    of its own ticket: the decoded completion of the chain on that
    ticket's text, whatever JSON value it is, or the default error
    response when the chain raised or the completion does not decode.
    What happens next is up to pandas: when it builds [final_df] from the
    frame and these entries, the script returns having written that one
    table to ["processed_support_tickets.csv"]; when it raises, the
    script raises the same exception and has written nothing. *)
Theorem script_appends_one_entry_per_ticket
        (World : Type)
        (chain_run : cell -> World -> result string * World)
        (json_loads : string -> result json)
        (concat_frames :
           DataFrame -> list json -> result (list (list cell * json)))
        (df : DataFrame) (sst : script_state World) :
  (forall text w e,
     fst (chain_run text w) = Raise e ->
     is_Exception e = true /\ is_JSONDecodeError e = false) ->
  (forall text w response e,
     fst (chain_run text w) = Ret response ->
     json_loads response = Raise e -> is_Exception e = true) ->
  has_column "support_tick_id" (columns df) = true ->
  has_column "support_ticket_text" (columns df) = true ->
  fst (script_loop chain_run json_loads (columns df) (rows df) [] sst)
  = Ret (script_entries chain_run json_loads (columns df) (rows df)
                        (s_world sst))
  /\ List.length (script_entries chain_run json_loads (columns df) (rows df)
                                 (s_world sst))
     = List.length (rows df)
  /\ (forall final_df,
        concat_frames df
          (script_entries chain_run json_loads (columns df) (rows df)
                          (s_world sst)) = Ret final_df ->
        fst (script chain_run json_loads concat_frames df sst) = Ret tt
        /\ s_written (snd (script chain_run json_loads concat_frames df sst))
           = (s_written sst
              ++ [("processed_support_tickets.csv", final_df)])%list)
  /\ (forall e,
        concat_frames df
          (script_entries chain_run json_loads (columns df) (rows df)
                          (s_world sst)) = Raise e ->
        fst (script chain_run json_loads concat_frames df sst) = Raise e
        /\ s_written (snd (script chain_run json_loads concat_frames df sst))
           = s_written sst).
Proof.
  intros Hch Hl Hid Htext.
  destruct (script_loop_appends World chain_run json_loads Hch Hl
              (columns df) (rows df) Hid Htext [] sst) as (Hloop & Hw).
  cbn [app] in Hloop.
  split; [exact Hloop|]. split; [apply script_entries_length|].
  unfold script. rewrite Hid, Htext. cbn [negb orb]. unfold mbind.
  destruct (script_loop chain_run json_loads (columns df) (rows df) [] sst)
    as [res st1].
  cbn [fst snd] in Hloop, Hw. subst res.
  split.
  - intros final_df Hpd. unfold lift. rewrite Hpd. cbn.
    split; [reflexivity|]. rewrite Hw. reflexivity.
  - intros e Hpd. unfold lift. rewrite Hpd. cbn.
    split; [reflexivity|exact Hw].
Qed.

Lemma script_appends_one_entry_per_ticket_witness :
  fst (script (Steady.chain_run (Ret Examples.not_json)) RefJSON.ref_loads
              Fake.concat_frames
              (Fake.tickets [Examples.T1; Examples.T2])
              Steady.script_start) = Ret tt
  /\ s_written (snd (script (Steady.chain_run (Ret Examples.not_json))
                            RefJSON.ref_loads Fake.concat_frames
                            (Fake.tickets [Examples.T1; Examples.T2])
                            Steady.script_start))
     = [("processed_support_tickets.csv",
         [(Examples.T1,
           JObj [ ("category", JStr "error");
                  ("tags", JArr []);
                  ("priority", JStr "low");
                  ("suggested_eta", JStr "N/A");
                  ("generated_reply", JStr "Error processing ticket.");
                  ("sentiment", JStr "neutral") ]);
          (Examples.T2,
           JObj [ ("category", JStr "error");
                  ("tags", JArr []);
                  ("priority", JStr "low");
                  ("suggested_eta", JStr "N/A");
                  ("generated_reply", JStr "Error processing ticket.");
                  ("sentiment", JStr "neutral") ])])].
Proof.
  refine (proj1 (proj2 (proj2
            (@script_appends_one_entry_per_ticket
               Steady.World (Steady.chain_run (Ret Examples.not_json))
               RefJSON.ref_loads Fake.concat_frames
               (Fake.tickets [Examples.T1; Examples.T2])
               Steady.script_start _ _ _ _))) _ _).
  - intros text w e H. discriminate H.
  - intros text w response e H Hl. cbn in H. injection H as <-.
    vm_compute in Hl. injection Hl as <-. reflexivity.
  - reflexivity.
  - reflexivity.
  - vm_compute. reflexivity.
Defined.

(** X11.  In the script a transport failure and an undecodable
    completion give the same entry: whether the chain raises an ordinary
    exception or answers with text that is not valid JSON, the loop body
    appends the default error response; only the line on the console
    tells the two apart. *)
Theorem script_failures_share_one_entry
        (World : Type)
        (chain_run : cell -> World -> result string * World)
        (json_loads : string -> result json)
        (cols : list string) (row : list cell)
        (st1 st2 : script_state World) (text id : cell)
        (e1 e2 : exn) (response : string) (w1 w2 : World) :
  row_get cols row "support_ticket_text" = Ret text ->
  row_get cols row "support_tick_id" = Ret id ->
  chain_run text (s_world st1) = (Raise e1, w1) ->
  is_Exception e1 = true -> is_JSONDecodeError e1 = false ->
  chain_run text (s_world st2) = (Ret response, w2) ->
  json_loads response = Raise e2 -> is_JSONDecodeError e2 = true ->
  fst (script_row chain_run json_loads cols row st1)
  = Ret default_error_response
  /\ fst (script_row chain_run json_loads cols row st2)
     = Ret default_error_response
  /\ s_stdout (snd (script_row chain_run json_loads cols row st1))
     = (s_stdout st1 ++ [PrintProcessingError id e1])%list
  /\ s_stdout (snd (script_row chain_run json_loads cols row st2))
     = (s_stdout st2 ++ [PrintInvalidJSON id response])%list.
Proof.
  intros Htext Hid Hrun1 He1 Hj1 Hrun2 Hl He2.
  unfold script_row, try_except, mbind, lift, mret, call_chain,
    read_response, s_print.
  rewrite Htext, Hrun1, Hrun2. cbn. rewrite Hj1, He1, Hl. cbn.
  rewrite He2. cbn. rewrite Hid. cbn. repeat split; reflexivity.
Qed.

Lemma script_failures_share_one_entry_witness :
  fst (script_row Fake.chain_run RefJSON.ref_loads Examples.cols Examples.T1
                  (Fake.script_start [Fake.fails "timeout"]))
  = Ret default_error_response
  /\ fst (script_row Fake.chain_run RefJSON.ref_loads Examples.cols
                     Examples.T1
                     (Fake.script_start [Ret Examples.not_json]))
     = Ret default_error_response
  /\ s_stdout (snd (script_row Fake.chain_run RefJSON.ref_loads Examples.cols
                               Examples.T1
                               (Fake.script_start [Fake.fails "timeout"])))
     = [PrintProcessingError (CStr "T1")
          (Exn (OtherException "EndpointConnectionError") "timeout")]
  /\ s_stdout (snd (script_row Fake.chain_run RefJSON.ref_loads Examples.cols
                               Examples.T1
                               (Fake.script_start [Ret Examples.not_json])))
     = [PrintInvalidJSON (CStr "T1") Examples.not_json].
Proof.
  refine (script_failures_share_one_entry
            Fake.World Fake.chain_run RefJSON.ref_loads Examples.cols
            Examples.T1
            (Fake.script_start [Fake.fails "timeout"])
            (Fake.script_start [Ret Examples.not_json])
            (CStr "My laptop won't boot") (CStr "T1")
            (Exn (OtherException "EndpointConnectionError") "timeout")
            (Exn JSONDecodeError "Expecting value")
            Examples.not_json [] [] _ _ _ _ _ _ _ _).
  all: try reflexivity.
Defined.

(** X12.  A [JSONDecodeError] raised by the chain itself reaches the
    handler that prints [response].  Before the chain has answered any
    ticket the variable is unbound: the handler raises [NameError] and
    the script ends.  After an earlier answer the handler prints that
    stale answer and appends the default error response. *)
Theorem script_handler_reads_stale_response
        (World : Type)
        (chain_run : cell -> World -> result string * World)
        (json_loads : string -> result json)
        (cols : list string) (row : list cell)
        (st : script_state World) (text id : cell) (e : exn) (w' : World) :
  row_get cols row "support_ticket_text" = Ret text ->
  row_get cols row "support_tick_id" = Ret id ->
  chain_run text (s_world st) = (Raise e, w') ->
  is_JSONDecodeError e = true ->
  (s_response st = None ->
   fst (script_row chain_run json_loads cols row st)
   = Raise (Exn (OtherException "NameError")
                "name 'response' is not defined")
   /\ forall todo results,
        fst (script_loop chain_run json_loads cols (row :: todo) results st)
        = Raise (Exn (OtherException "NameError")
                     "name 'response' is not defined"))
  /\ (forall stale,
        s_response st = Some stale ->
        fst (script_row chain_run json_loads cols row st)
        = Ret default_error_response
        /\ s_stdout (snd (script_row chain_run json_loads cols row st))
           = (s_stdout st ++ [PrintInvalidJSON id stale])%list).
Proof.
  intros Htext Hid Hrun He.
  assert (Hrow : forall o, s_response st = o ->
            script_row chain_run json_loads cols row st
            = match o with
              | None =>
                  (Raise (Exn (OtherException "NameError")
                              "name 'response' is not defined"),
                   {| s_world := w'; s_calls := s_calls st ++ [text];
                      s_response := None; s_stdout := s_stdout st;
                      s_written := s_written st |})
              | Some stale =>
                  (Ret default_error_response,
                   {| s_world := w'; s_calls := s_calls st ++ [text];
                      s_response := Some stale;
                      s_stdout := s_stdout st ++ [PrintInvalidJSON id stale];
                      s_written := s_written st |})
              end).
  { intros o Ho.
    unfold script_row, try_except, mbind, lift, mret, call_chain,
      read_response, s_print.
    rewrite Htext, Hrun. cbn. rewrite He. cbn. rewrite Hid. cbn.
    rewrite Ho. destruct o; reflexivity. }
  split.
  - intros Hnone. rewrite (Hrow None Hnone). split; [reflexivity|].
    intros todo results. cbn [script_loop]. unfold mbind.
    rewrite (Hrow None Hnone). reflexivity.
  - intros stale Hsome. rewrite (Hrow (Some stale) Hsome).
    split; reflexivity.
Qed.

Lemma script_handler_reads_stale_response_witness :
  fst (script_row Fake.chain_run RefJSON.ref_loads Examples.cols Examples.T1
         (Fake.script_start
            [Raise (Exn JSONDecodeError "Expecting value")]))
  = Raise (Exn (OtherException "NameError") "name 'response' is not defined").
Proof.
  refine (proj1 (proj1 (script_handler_reads_stale_response
            Fake.World Fake.chain_run RefJSON.ref_loads Examples.cols
            Examples.T1
            (Fake.script_start
               [Raise (Exn JSONDecodeError "Expecting value")])
            (CStr "My laptop won't boot") (CStr "T1")
            (Exn JSONDecodeError "Expecting value") [] _ _ _ _) _)).
  all: reflexivity.
Defined.

(** ** The interactive front end *)

Lemma strip_all_space (s : string) :
  all_space s = true -> str_strip s = EmptyString.
Proof.
  unfold str_strip. induction s as [|c s IH]; cbn; [reflexivity|].
  intros H. apply andb_prop in H as [Hc Hs]. rewrite Hc. apply IH. exact Hs.
Qed.

Lemma lstrip_not_all_space (s : string) :
  all_space s = false ->
  exists c s', str_lstrip s = String c s' /\ py_isspace c = false.
Proof.
  induction s as [|c s IH]; cbn [all_space str_lstrip]; [discriminate|].
  destruct (py_isspace c) eqn:Hc; cbn [andb].
  - exact IH.
  - intros _. exists c, s. split; [reflexivity | exact Hc].
Qed.

Lemma strip_not_all_space (s : string) :
  all_space s = false -> str_truthy (str_strip s) = true.
Proof.
  intros H. destruct (lstrip_not_all_space s H) as (c & s' & Hl & Hc).
  unfold str_strip. rewrite Hl. cbn [str_rstrip].
  destruct (str_rstrip s'); [rewrite Hc|]; reflexivity.
Qed.

Section AppFacts.

Variable World : Type.
Variable invoke_model : request -> World -> result string * World.
Variable json_loads : string -> result json.
Variable float_is_zero : string -> bool.

(** What the app does with the value that [send_prompt] returned. *)
Lemma st_main_analyze ticket_text s v b' :
  all_space ticket_text = false ->
  send_prompt invoke_model json_loads (prompt_of ticket_text) false
              (backend s) = (Ret v, b') ->
  st_main invoke_model json_loads float_is_zero ticket_text true s
  = if py_truthy float_is_zero v then
      match py_in "error" v with
      | Ret true =>
          match py_getitem v "error" with
          | Ret message => (Ret tt, page_after s b' [StError message])
          | Raise e => (Raise e, page_after s b' [])
          end
      | Ret false =>
          (Ret tt, {| backend := b';
                      screen := (screen (page_after s b' [])
                                 ++ [StSubheader "AI Response:"])
                                ++ [StJson v] |})
      | Raise e => (Raise e, page_after s b' [])
      end
    else (Ret tt, page_after s b' [StError (JStr could_not_process)]).
Proof.
  intros Htext Hsend.
  unfold st_main, mbind, show, mret, on_backend, lift. cbv beta iota.
  cbn [backend screen].
  rewrite (strip_not_all_space _ Htext), render_prompt_of.
  cbv beta iota. cbn [backend screen].
  rewrite st_send_prompt_is_send_prompt. rewrite Hsend.
  unfold page_after. cbn. rewrite !app_nil_r.
  destruct (py_truthy float_is_zero v); [|reflexivity].
  destruct (py_in "error" v) as [[|]|e]; reflexivity.
Qed.

End AppFacts.

(** X13.  Without a click, or with a ticket text that is empty or all
    whitespace, the app calls no endpoint: it draws its widgets, and
    after a click on blank text the warning, and leaves the state behind
    [send_prompt] as it was. *)
Theorem app_is_idle_without_input
        (World : Type)
        (invoke_model : request -> World -> result string * World)
        (json_loads : string -> result json)
        (float_is_zero : string -> bool)
        (ticket_text : string) (clicked : bool) (s : app_state World) :
  clicked = false \/ all_space ticket_text = true ->
  st_main invoke_model json_loads float_is_zero ticket_text clicked s
  = (Ret tt,
     {| backend := backend s;
        screen :=
          ((((screen s ++ [StTitle "AI Support Ticket Assistant"])
             ++ [StWrite "Enter your support ticket inquiry, and the AI will analyze and respond."])
            ++ [StTextArea "Enter your support ticket details here:"])
           ++ [StButton "Analyze Ticket"])
          ++ (if clicked then [StWarning please_enter] else []) |}).
Proof.
  intros H. unfold st_main, mbind, show, mret. cbn.
  destruct clicked.
  - destruct H as [H|H]; [discriminate|].
    rewrite (strip_all_space _ H). reflexivity.
  - rewrite app_nil_r. reflexivity.
Qed.

Lemma app_is_idle_without_input_witness :
  backend (snd (st_main Fake.invoke_model RefJSON.ref_loads
                        (fun _ => false) "  " true
                        {| backend :=
                             Fake.start [Fake.answers Examples.full_reply];
                           screen := [] |}))
  = Fake.start [Fake.answers Examples.full_reply].
Proof.
  exact (f_equal (fun r => backend (snd r))
           (app_is_idle_without_input
              Fake.World Fake.invoke_model RefJSON.ref_loads
              (fun _ => false) "  " true
              {| backend := Fake.start [Fake.answers Examples.full_reply];
                 screen := [] |}
              (or_intror eq_refl))).
Defined.

(** X14.  After a click on a ticket text that is not blank, whenever the
    endpoint does anything but deliver a completion (ordinary exceptions
    only), [send_prompt] returns a dictionary [{"error": message}] and
    the app returns and shows, after its widgets and the progress line,
    exactly one error box, which carries that message.  The message is
    ["Error occurred: "] followed by [str(e)] when the endpoint raised
    [e] and when the response body is not JSON, and
    ["Invalid response format from Bedrock."] when the body is an object
    without [results], with no result, or whose first result has no
    [outputText]. *)
Theorem app_shows_transport_failure
        (World : Type)
        (invoke_model : request -> World -> result string * World)
        (json_loads : string -> result json)
        (float_is_zero : string -> bool)
        (ticket_text : string) (s : app_state World)
        (out : result string) (w' : World) :
  all_space ticket_text = false ->
  invoke_model (request_for (prompt_of ticket_text)) (world (backend s))
  = (out, w') ->
  (forall e, out = Raise e -> is_Exception e = true) ->
  (forall body e, out = Ret body -> json_loads body = Raise e ->
                  is_Exception e = true) ->
  let shown (message : string) :=
    fst (st_send_prompt invoke_model json_loads (prompt_of ticket_text)
                        (backend s))
    = Ret (JObj [("error", JStr message)])
    /\ st_main invoke_model json_loads float_is_zero ticket_text true s
       = (Ret tt,
          {| backend :=
               {| world := w';
                  calls := calls (backend s)
                           ++ [request_for (prompt_of ticket_text)];
                  stdout := stdout (backend s);
                  written := written (backend s) |};
             screen :=
               (screen s
                ++ [ StTitle "AI Support Ticket Assistant";
                     StWrite "Enter your support ticket inquiry, and the AI will analyze and respond.";
                     StTextArea "Enter your support ticket details here:";
                     StButton "Analyze Ticket";
                     StWrite "Processing your ticket...";
                     StError (JStr message) ])%list |}) in
  ((forall completion, ~ delivers json_loads out completion) ->
   exists message, shown message)
  /\ (forall e, out = Raise e -> shown ("Error occurred: " ++ exn_str e))
  /\ (forall body e, out = Ret body -> json_loads body = Raise e ->
        shown ("Error occurred: " ++ exn_str e))
  /\ (forall body envelope,
        out = Ret body -> json_loads body = Ret (JObj envelope) ->
        dict_lookup "results" envelope = None
        \/ dict_lookup "results" envelope = Some (JArr [])
        \/ (exists first others,
              dict_lookup "results" envelope
              = Some (JArr (JObj first :: others))
              /\ dict_lookup "outputText" first = None) ->
        shown "Invalid response format from Bedrock.").
Proof.
  intros Htext Hcall Hexn Hdec. cbv zeta.
  assert (Hshown : forall message,
    send_prompt invoke_model json_loads (prompt_of ticket_text) false
                (backend s)
    = (Ret (error_dict message),
       after_call (backend s) (request_for (prompt_of ticket_text)) w') ->
    fst (st_send_prompt invoke_model json_loads (prompt_of ticket_text)
                        (backend s))
    = Ret (JObj [("error", JStr message)])
    /\ st_main invoke_model json_loads float_is_zero ticket_text true s
       = (Ret tt,
          page_after s (after_call (backend s)
                          (request_for (prompt_of ticket_text)) w')
                     [StError (JStr message)])).
  { intros message Hsend. split.
    - rewrite st_send_prompt_is_send_prompt, Hsend. reflexivity.
    - rewrite (st_main_analyze World invoke_model json_loads float_is_zero
                 ticket_text s _ _ Htext Hsend).
      reflexivity. }
  assert (Hpage : forall message,
    page_after s (after_call (backend s)
                    (request_for (prompt_of ticket_text)) w')
               [StError (JStr message)]
    = {| backend :=
           {| world := w';
              calls := calls (backend s)
                       ++ [request_for (prompt_of ticket_text)];
              stdout := stdout (backend s);
              written := written (backend s) |};
         screen :=
           (screen s
            ++ [ StTitle "AI Support Ticket Assistant";
                 StWrite "Enter your support ticket inquiry, and the AI will analyze and respond.";
                 StTextArea "Enter your support ticket details here:";
                 StButton "Analyze Ticket";
                 StWrite "Processing your ticket...";
                 StError (JStr message) ])%list |}).
  { intros message. unfold page_after, after_call.
    rewrite <- !app_assoc. reflexivity. }
  split.
  { intros Hnot.
    destruct (@send_prompt_failure World invoke_model json_loads
                (prompt_of ticket_text) false (backend s) out w'
                Hcall Hexn Hdec Hnot) as (message & Hsend & _).
    exists message. rewrite <- Hpage. apply Hshown. exact Hsend. }
  split.
  { intros e He. subst out. rewrite <- Hpage. apply Hshown.
    exact (@send_prompt_endpoint_raised World invoke_model json_loads
             (prompt_of ticket_text) false (backend s) e w' Hcall
             (Hexn e eq_refl)). }
  split.
  { intros body e Hout Hbody. subst out. rewrite <- Hpage. apply Hshown.
    exact (@send_prompt_bad_body World invoke_model json_loads
             (prompt_of ticket_text) false (backend s) body e w' Hcall Hbody
             (Hdec body e eq_refl Hbody)). }
  intros body envelope Hout Hbody Hmissing. subst out.
  rewrite <- Hpage. apply Hshown.
  exact (@send_prompt_missing_envelope World invoke_model json_loads
           (prompt_of ticket_text) false (backend s) body envelope w'
           Hcall Hbody Hmissing).
Qed.

Lemma app_shows_transport_failure_witness :
  fst (st_send_prompt Fake.invoke_model RefJSON.ref_loads
         (prompt_of "My laptop won't boot")
         (Fake.start [Fake.fails "timeout"]))
  = Ret (JObj [("error", JStr "Error occurred: timeout")])
  /\ st_main Fake.invoke_model RefJSON.ref_loads (fun _ => false)
             "My laptop won't boot" true
             {| backend := Fake.start [Fake.fails "timeout"]; screen := [] |}
     = (Ret tt,
        {| backend :=
             {| world := [];
                calls := [request_for (prompt_of "My laptop won't boot")];
                stdout := [];
                written := [] |};
           screen :=
             [ StTitle "AI Support Ticket Assistant";
               StWrite "Enter your support ticket inquiry, and the AI will analyze and respond.";
               StTextArea "Enter your support ticket details here:";
               StButton "Analyze Ticket";
               StWrite "Processing your ticket...";
               StError (JStr "Error occurred: timeout") ] |}).
Proof.
  pose proof (@app_shows_transport_failure
                Fake.World Fake.invoke_model RefJSON.ref_loads
                (fun _ => false) "My laptop won't boot"
                {| backend := Fake.start [Fake.fails "timeout"];
                   screen := [] |}
                (Fake.fails "timeout") []) as H.
  cbv zeta in H.
  destruct H as (_ & Hraised & _).
  - reflexivity.
  - reflexivity.
  - intros e H. inversion H. reflexivity.
  - intros body e H. discriminate H.
  - exact (Hraised (Exn (OtherException "EndpointConnectionError")
                        "timeout") eq_refl).
Defined.

(** X15.  After a click on a ticket text that is not blank, a delivered
    completion that decodes to a JSON object with at least one key is
    shown by its key [error]: with the key, one error box with the value
    under it and nothing else of the object; without it, the subheader
    and the whole object.  An empty object, like every other value that
    Python counts as false, gives the box "could not be processed". *)
Theorem app_shows_object_by_error_key
        (World : Type)
        (invoke_model : request -> World -> result string * World)
        (json_loads : string -> result json)
        (float_is_zero : string -> bool)
        (ticket_text : string) (s : app_state World)
        (out : result string) (w' : World) (completion : string) (v : json) :
  all_space ticket_text = false ->
  invoke_model (request_for (prompt_of ticket_text)) (world (backend s))
  = (out, w') ->
  delivers json_loads out completion ->
  json_loads completion = Ret v ->
  let b' := with_output (after_call (backend s)
                           (request_for (prompt_of ticket_text)) w') [] in
  let run := st_main invoke_model json_loads float_is_zero ticket_text
                     true s in
  (py_truthy float_is_zero v = false ->
   run = (Ret tt, page_after s b' [StError (JStr could_not_process)]))
  /\ (forall k x d reply,
        v = JObj ((k, x) :: d) ->
        dict_lookup "error" ((k, x) :: d) = Some reply ->
        run = (Ret tt, page_after s b' [StError reply]))
  /\ (forall k x d,
        v = JObj ((k, x) :: d) ->
        dict_lookup "error" ((k, x) :: d) = None ->
        run = (Ret tt,
               page_after s b' [StSubheader "AI Response:"; StJson v])).
Proof.
  intros Htext Hcall Hdel Hv. cbv zeta.
  pose proof (@send_prompt_decoded World invoke_model json_loads
                (prompt_of ticket_text) false (backend s) out w'
                completion v Hcall Hdel Hv) as Hsend.
  cbv iota in Hsend.
  rewrite (st_main_analyze World invoke_model json_loads float_is_zero
             ticket_text s _ _ Htext Hsend).
  split; [intros ->; reflexivity|]. split.
  - intros k x d reply -> Herr. cbn [py_truthy py_in py_getitem].
    unfold dict_has. rewrite Herr. reflexivity.
  - intros k x d -> Herr. cbn [py_truthy py_in]. unfold dict_has.
    rewrite Herr. unfold page_after. cbn [screen backend].
    rewrite app_nil_r, <- !app_assoc. reflexivity.
Qed.

(** X16.  After a click on a ticket text that is not blank, a delivered
    completion that decodes to a number other than zero or to [true]
    makes the app raise [TypeError]: ['error' in ai_response] is
    evaluated outside any [try]. *)
Theorem app_raises_on_truthy_scalar
        (World : Type)
        (invoke_model : request -> World -> result string * World)
        (json_loads : string -> result json)
        (float_is_zero : string -> bool)
        (ticket_text : string) (s : app_state World)
        (out : result string) (w' : World) (completion : string) (v : json) :
  all_space ticket_text = false ->
  invoke_model (request_for (prompt_of ticket_text)) (world (backend s))
  = (out, w') ->
  delivers json_loads out completion ->
  json_loads completion = Ret v ->
  py_truthy float_is_zero v = true ->
  match v with JBool _ | JInt _ | JFloat _ => True | _ => False end ->
  fst (st_main invoke_model json_loads float_is_zero ticket_text true s)
  = Raise (Exn TypeError
               ("argument of type '" ++ type_name v ++ "' is not iterable")).
Proof.
  intros Htext Hcall Hdel Hv Htrue Hscalar.
  pose proof (@send_prompt_decoded World invoke_model json_loads
                (prompt_of ticket_text) false (backend s) out w'
                completion v Hcall Hdel Hv) as Hsend.
  cbv iota in Hsend.
  rewrite (st_main_analyze World invoke_model json_loads float_is_zero
             ticket_text s _ _ Htext Hsend), Htrue.
  destruct v; try contradiction; reflexivity.
Qed.

Lemma app_raises_on_truthy_scalar_witness :
  fst (st_main Fake.invoke_model RefJSON.ref_loads (fun _ => false)
               "My laptop won't boot" true
               {| backend := Fake.start [Fake.answers "42"]; screen := [] |})
  = Raise (Exn TypeError "argument of type 'int' is not iterable").
Proof.
  refine (app_raises_on_truthy_scalar
            Fake.World Fake.invoke_model RefJSON.ref_loads (fun _ => false)
            "My laptop won't boot"
            {| backend := Fake.start [Fake.answers "42"]; screen := [] |}
            (Fake.answers "42") [] "42" (JInt 42) _ _ _ _ _ _).
  - reflexivity.
  - reflexivity.
  - do 4 eexists. split; [reflexivity|].
    split; [vm_compute; reflexivity|]. split; reflexivity.
  - vm_compute; reflexivity.
  - reflexivity.
  - exact I.
Defined.

Lemma app_shows_object_by_error_key_witness :
  st_main Fake.invoke_model RefJSON.ref_loads (fun _ => false)
          "My laptop won't boot" true
          {| backend := Fake.start [Fake.answers Examples.error_key_reply];
             screen := [] |}
  = (Ret tt,
     page_after
       {| backend := Fake.start [Fake.answers Examples.error_key_reply];
          screen := [] |}
       (with_output
          (after_call (Fake.start [Fake.answers Examples.error_key_reply])
                      (request_for (prompt_of "My laptop won't boot")) [])
          [])
       [StError (JStr "none")]).
Proof.
  refine (proj1 (proj2 (app_shows_object_by_error_key
            Fake.World Fake.invoke_model RefJSON.ref_loads (fun _ => false)
            "My laptop won't boot"
            {| backend := Fake.start [Fake.answers Examples.error_key_reply];
               screen := [] |}
            (Fake.answers Examples.error_key_reply) []
            Examples.error_key_reply (JObj Examples.error_key_dict)
            _ _ _ _))
            "category" (JStr "hardware issues")
            (tl Examples.error_key_dict) (JStr "none") eq_refl eq_refl).
  - reflexivity.
  - reflexivity.
  - do 4 eexists. split; [reflexivity|].
    split; [vm_compute; reflexivity|]. split; reflexivity.
  - vm_compute; reflexivity.
Defined.

(** ** The console of a quiet run *)

Section QuietFacts.

Variable World : Type.
Variable invoke_model : request -> World -> result string * World.
Variable json_loads : string -> result json.

Lemma keeps_console_mret {A} (a : A) : @keeps_console World A (mret a).
Proof. intros st. reflexivity. Qed.

Lemma keeps_console_lift {A} (r : result A) : @keeps_console World A (lift r).
Proof. intros st. reflexivity. Qed.

Lemma keeps_console_call rq :
  keeps_console (call_invoke_model invoke_model rq).
Proof.
  intros st. unfold call_invoke_model.
  destruct (invoke_model rq (world st)). reflexivity.
Qed.

Lemma keeps_console_bind {A B} (m : M (state World) A)
      (k : A -> M (state World) B) :
  keeps_console m -> (forall a, keeps_console (k a)) ->
  keeps_console (mbind m k).
Proof.
  intros Hm Hk st. unfold mbind. specialize (Hm st).
  destruct (m st) as [[a|e] st1]; cbn in *.
  - rewrite (Hk a st1). exact Hm.
  - exact Hm.
Qed.

Lemma keeps_console_try {A} (body : M (state World) A) catches handler :
  keeps_console body -> (forall e, keeps_console (handler e)) ->
  keeps_console (try_except body catches handler).
Proof.
  intros Hb Hh st. unfold try_except. specialize (Hb st).
  destruct (body st) as [[a|e] st1]; cbn in *; [exact Hb|].
  destruct (catches e); [|exact Hb]. rewrite (Hh e st1). exact Hb.
Qed.

Ltac quiet_steps :=
  repeat first
    [ apply keeps_console_mret | apply keeps_console_lift
    | apply keeps_console_call | apply keeps_console_try
    | apply keeps_console_bind
    | match goal with
      | |- keeps_console (if ?b then _ else _) => destruct b
      | |- forall _, _ => intro
      end ].

Lemma keeps_console_send_prompt prompt :
  keeps_console (send_prompt invoke_model json_loads prompt false).
Proof. unfold send_prompt, send_prompt_try. quiet_steps. Qed.

Lemma keeps_console_process_rows cols todo :
  forall generated_data,
    keeps_console (process_rows invoke_model json_loads cols false todo
                                generated_data).
Proof.
  induction todo as [|row todo IH]; intros generated_data; cbn [process_rows].
  - apply keeps_console_mret.
  - apply keeps_console_bind; [|intros r; apply IH].
    unfold process_row.
    apply keeps_console_bind; [apply keeps_console_lift | intros text].
    apply keeps_console_bind; [apply keeps_console_lift | intros prompt].
    apply keeps_console_bind; [apply keeps_console_send_prompt | intros v].
    apply keeps_console_lift.
Qed.

End QuietFacts.

(** X17.  Without [verbose], [process_tickets] prints one line or none:
    the error about the columns when one is missing, the line that names
    [output_csv] when the run returns, and nothing when an exception ends
    the run. *)
Theorem quiet_run_prints_one_line_or_none
        (World : Type)
        (invoke_model : request -> World -> result string * World)
        (json_loads : string -> result json)
        (df : DataFrame) (output_csv : string) (st : state World) :
  let run := process_tickets invoke_model json_loads df output_csv false st in
  let missing :=
    negb (has_column "support_tick_id" (columns df))
    || negb (has_column "support_ticket_text" (columns df)) in
  stdout (snd run)
  = (stdout st
     ++ match fst run with
        | Raise _ => []
        | Ret _ =>
            if missing then [PrintLine missing_columns_message]
            else [PrintLine ("Processed data saved to " ++ output_csv)]
        end)%list.
Proof.
  cbv zeta. unfold process_tickets.
  destruct (negb (has_column "support_tick_id" (columns df))
            || negb (has_column "support_ticket_text" (columns df))).
  - reflexivity.
  - unfold mbind.
    pose proof (keeps_console_process_rows World invoke_model json_loads
                  (columns df) (rows df) [] st) as Hq.
    destruct (process_rows invoke_model json_loads (columns df) false
                           (rows df) [] st) as [[rows_out|e] st1];
      cbn in *.
    + rewrite Hq. reflexivity.
    + rewrite Hq, app_nil_r. reflexivity.
Qed.
